(** * News report definitions: Redis-backed store and decorator renderer

    Shallow embedding of [report.py] (the Decorator chain that renders a
    report) and of the [Model] class and the report-building part of
    [Controller.__print_report] / [Controller.__create_report] in [mvc.py].

    The database operations of the [Model] methods ([create_report],
    [get_report_names], [get_report_data]) are modelled first, on the
    database alone.  [logger.py] and [App.setup] / [App.log] are modelled
    further down on a world of database, files, stdout and clock, and
    [model_create_report] / [model_get_report_names] add the methods'
    closing [App().log] calls; statements about what else a call leaves
    in the database are made about these.  The database logger writes
    only fields of the hash at key ["log"], which no database operation
    of the [Model] reads. *)

From Stdlib Require Import Ascii String ZArith Lia.
From stdpp Require Import base gmap strings list pretty.

Local Open Scope string_scope.

(* ------------------------------------------------------------------ *)
(** ** Python strings *)

(** The one-character string ["\n"]. *)
Definition nl : string := String "010"%char EmptyString.

(** [str(x)] of a JSON field that is either a string or [null]. *)
Definition py_str (x : option string) : string :=
  match x with
  | Some s => s
  | None => "None"
  end.

(** [sep.join(l)] *)
Fixpoint join (sep : string) (l : list string) : string :=
  match l with
  | [] => ""
  | [x] => x
  | x :: l' => x +:+ sep +:+ join sep l'
  end.

(** [s.split(c)] for a one-character separator [c]: always at least one
    piece, the empty string splits to [[""]]. *)
Fixpoint split_on (c : ascii) (s : string) : list string :=
  match s with
  | EmptyString => [""]
  | String x s' =>
      let rest := split_on c s' in
      if ascii_dec x c then "" :: rest
      else match rest with
           | [] => [String x ""]
           | h :: t => String x h :: t
           end
  end.

Definition comma : ascii := ","%char.

(* ------------------------------------------------------------------ *)
(** ** report.py: the Decorator chain *)

(** An article as returned by the News API; every field may be [null]. *)
Record article := mk_article {
  title : option string;
  author : option string;
  description : option string;
  content : option string;
}.

(** The News API client [App().newsapi], reduced to the ["articles"] list
    of the three queries the renderer issues. *)
Record NewsApi := mk_newsapi {
  get_top_headlines : string -> list article;                (* sources=s *)
  get_everything_qintitle : string -> string -> list article; (* sources=s, qintitle=t *)
  get_everything_q : string -> string -> list article;        (* sources=s, q=t *)
}.

(** [Report] (Component) with its concrete classes [ReportBase]
    (ConcreteComponent) and the two [ReportExtension] subclasses
    (ConcreteDecorators), each holding the report it wraps, a source id and
    a search term. *)
Inductive Report : Type :=
| ReportBase (source_id : string)
| ReportTitleSearch (report : Report) (source_id search_term : string)
| ReportAllSearch (report : Report) (source_id search_term : string).

Definition separator : string := "****************************************".

(** The [report_text] methods; each loop over [headlines["articles"]]
    appends to the accumulated [report_text]. *)
Fixpoint report_text (newsapi : NewsApi) (r : Report) : string :=
  match r with
  | ReportBase source_id =>
      fold_left
        (fun report_text article =>
           report_text +:+
           "Title: " +:+ py_str (title article) +:+ nl +:+
           "Description: " +:+ py_str (description article) +:+ nl +:+ nl)
        (get_top_headlines newsapi source_id)
        ("Headlines from " +:+ source_id +:+ nl +:+ nl)
  | ReportTitleSearch report source_id search_term =>
      let report_text0 := report_text newsapi report in
      let headlines := get_everything_qintitle newsapi source_id search_term in
      let report_text1 := report_text0 +:+ separator in
      let report_text2 := report_text1 +:+ nl +:+ nl +:+ "Search results for '" +:+
                          search_term +:+ "' in the title only: " +:+ nl +:+ nl in
      fold_left
        (fun report_text article =>
           report_text +:+
           "Title: " +:+ py_str (title article) +:+ nl +:+
           "Author: " +:+ py_str (author article) +:+ nl +:+ nl)
        headlines report_text2
  | ReportAllSearch report source_id search_term =>
      let report_text0 := report_text newsapi report in
      let headlines := get_everything_q newsapi source_id search_term in
      let report_text1 := report_text0 +:+ separator in
      let report_text2 := report_text1 +:+ nl +:+ nl +:+ "Search results for '" +:+
                          search_term +:+ "' in the title or content: " +:+ nl +:+ nl in
      fold_left
        (fun report_text article =>
           report_text +:+
           "Title: " +:+ py_str (title article) +:+ nl +:+
           "Content: " +:+ py_str (content article) +:+ nl +:+ nl)
        headlines report_text2
  end.

(* ------------------------------------------------------------------ *)
(** ** mvc.py: building the decorator chain from stored fields *)

(** The controller's handling of a stored comma-joined term string:
    [if (len(terms) != 0): for t in terms.split(","): ...]; an empty string
    contributes no term. *)
Definition terms_list (terms : string) : list string :=
  if negb (String.length terms =? 0)%nat then split_on comma terms else [].

(** The decorator construction of [Controller.__print_report]: the base
    report, wrapped by one [ReportTitleSearch] per title term, then by one
    [ReportAllSearch] per all term. *)
Definition build_report (source_id title_search_terms all_search_terms : string)
    : Report :=
  let report := ReportBase source_id in
  let report := fold_left (fun report search_term =>
                             ReportTitleSearch report source_id search_term)
                          (terms_list title_search_terms) report in
  fold_left (fun report search_term =>
               ReportAllSearch report source_id search_term)
            (terms_list all_search_terms) report.

(** The serialization of [Controller.__create_report]: [','.join(terms)]. *)
Definition serialize_terms (terms : list string) : string := join "," terms.

(* ------------------------------------------------------------------ *)
(** ** Python [int(s)] on a string *)

Local Open Scope Z_scope.

Definition digit_val (c : ascii) : option Z :=
  let n := Z.of_nat (nat_of_ascii c) - 48 in
  if (0 <=? n) && (n <=? 9) then Some n else None.

Fixpoint parse_digits (acc : Z) (s : string) : option Z :=
  match s with
  | EmptyString => Some acc
  | String c s' =>
      match digit_val c with
      | Some d => parse_digits (acc * 10 + d) s'
      | None => None
      end
  end.

(** The characters [int] skips before and after the number: Python's
    whitespace among the first 256 code points (tab, line feed, vertical
    tab, form feed, carriage return, space, U+0085 and U+00A0). *)
Definition py_isspace (c : ascii) : bool :=
  existsb (Nat.eqb (nat_of_ascii c)) [9; 10; 11; 12; 13; 32; 133; 160]%nat.

Fixpoint py_lstrip (s : string) : string :=
  match s with
  | EmptyString => EmptyString
  | String c s' => if py_isspace c then py_lstrip s' else s
  end.

Fixpoint py_all_space (s : string) : bool :=
  match s with
  | EmptyString => true
  | String c s' => py_isspace c && py_all_space s'
  end.

(** The digits after the first one: a single [_] may separate two digits;
    trailing whitespace may follow the last digit. *)
Fixpoint parse_body (acc : Z) (after_underscore : bool) (s : string) : option Z :=
  match s with
  | EmptyString => if after_underscore then None else Some acc
  | String c s' =>
      match digit_val c with
      | Some d => parse_body (acc * 10 + d) false s'
      | None =>
          if after_underscore then None
          else if ascii_dec c "_" then parse_body acc true s'
          else if py_all_space s then Some acc
          else None
      end
  end.

(** At least one digit, the first one not preceded by [_]. *)
Definition py_int_unsigned (s : string) : option Z :=
  match s with
  | EmptyString => None
  | String c s' =>
      match digit_val c with
      | Some d => parse_body d false s'
      | None => None
      end
  end.

(** [int(s)] on a [str]: leading whitespace, an optional sign, decimal
    digits with single [_] separators, trailing whitespace; anything else
    raises [ValueError] ([None]).  (Python releases with the 4300-digit
    limit of integer string conversion also raise on longer digit runs;
    that limit is not modelled.) *)
Definition py_int (s : string) : option Z :=
  match py_lstrip s with
  | EmptyString => None
  | String c r as s' =>
      if ascii_dec c "-" then Z.opp <$> py_int_unsigned r
      else if ascii_dec c "+" then py_int_unsigned r
      else py_int_unsigned s'
  end.

(** [str(n)] of a Python int. *)
Definition py_str_int (n : Z) : string := pretty n.

(* ------------------------------------------------------------------ *)
(** ** The Redis database [App().dbconn] *)

(** A Redis value: a plain string (as under ["report:count"]) or a hash
    (as under ["report:<i>"]).  With [decode_responses=True] every value
    read back is a [str]. *)
Inductive rvalue : Type :=
| RStr (v : string)
| RHash (h : gmap string string).

Abbreviation db := (gmap string rvalue).

(** Operations on the database: state passing, with [None] for a raised
    exception (a Redis [WRONGTYPE] error, or a Python [TypeError] or
    [ValueError]). *)
Definition M (A : Type) : Type := db -> option (A * db).

Definition ret {A} (x : A) : M A := fun d => Some (x, d).
Definition raise {A} : M A := fun _ => None.
Definition bind {A B} (m : M A) (k : A -> M B) : M B :=
  fun d => match m d with
           | Some (x, d') => k x d'
           | None => None
           end.
Definition lift {A} (o : option A) : M A :=
  fun d => match o with Some x => Some (x, d) | None => None end.

Declare Scope redis_scope.
Delimit Scope redis_scope with redis.
Notation "x <-- m ;; k" := (bind m (fun x => k))
  (at level 100, m at next level, right associativity) : redis_scope.
Notation "m ;;; k" := (bind m (fun _ => k))
  (at level 100, right associativity) : redis_scope.
Local Open Scope redis_scope.

(** [GET k]: [None] when the key is absent, [WRONGTYPE] on a hash. *)
Definition redis_get (k : string) : M (option string) :=
  fun d => match d !! k with
           | None => Some (None, d)
           | Some (RStr v) => Some (Some v, d)
           | Some (RHash _) => None
           end.

(** [SET k v]: overwrites whatever the key held. *)
Definition redis_set (k v : string) : M unit :=
  fun d => Some (tt, <[k := RStr v]> d).

(** [HSET k f v]: creates the hash when the key is absent. *)
Definition redis_hset (k f v : string) : M unit :=
  fun d => match d !! k with
           | None => Some (tt, <[k := RHash {[f := v]}]> d)
           | Some (RHash h) => Some (tt, <[k := RHash (<[f := v]> h)]> d)
           | Some (RStr _) => None
           end.

(** [HGET k f]: [None] when the key or the field is absent. *)
Definition redis_hget (k f : string) : M (option string) :=
  fun d => match d !! k with
           | None => Some (None, d)
           | Some (RHash h) => Some (h !! f, d)
           | Some (RStr _) => None
           end.

(* ------------------------------------------------------------------ *)
(** ** mvc.py: the [Model] *)

Definition count_key : string := "report:count".
Definition report_key (i : Z) : string := "report:" +:+ py_str_int i.

(** The database operations of [Model.create_report] (lines 190-201; the
    closing [App().log] call is added in [model_create_report]).  The
    method has no [return] statement, so a call evaluates to Python's
    [None]; its result is written as an [option Z] (an [int] or [None]) so
    that it can be compared with an id. *)
Definition create_report (report_name source_id title_search_terms
                          all_search_terms : string) : M (option Z) :=
  count <-- redis_get count_key ;;
  count <-- (match count with
             | None => ret 1%Z
             | Some c => n <-- lift (py_int c) ;; ret (n + 1)%Z
             end) ;;
  redis_set count_key (py_str_int count) ;;;
  let report_key := report_key count in
  redis_hset report_key "report_name" report_name ;;;
  redis_hset report_key "source_id" source_id ;;;
  redis_hset report_key "title_search_terms" title_search_terms ;;;
  redis_hset report_key "all_search_terms" all_search_terms ;;;
  ret None.

(** The [while i <= count] loop of [Model.get_report_names], run [n]
    times from [i]. *)
Fixpoint get_report_names_loop (n : nat) (i : Z) : M (list (option string)) :=
  match n with
  | O => ret []
  | S n' =>
      report_name <-- redis_hget (report_key i) "report_name" ;;
      report_names <-- get_report_names_loop n' (i + 1) ;;
      ret (report_name :: report_names)
  end.

(** The database operations of [Model.get_report_names] (lines 207-213;
    the [App().log] call is added in [model_get_report_names]):
    [int(App().dbconn.get("report:count"))] raises [TypeError] when the
    key is absent ([int(None)]). *)
Definition get_report_names : M (list (option string)) :=
  count <-- redis_get count_key ;;
  count <-- (match count with
             | None => raise
             | Some c => lift (py_int c)
             end) ;;
  get_report_names_loop (Z.to_nat count) 1.

(** The database operations of [Model.get_report_data] (lines 220-223);
    its [App().log] call writes at most the hash at ["log"]. *)
Definition get_report_data (report_id : Z)
    : M (option string * option string * option string) :=
  let report_key := report_key report_id in
  source_id <-- redis_hget report_key "source_id" ;;
  title_search_terms <-- redis_hget report_key "title_search_terms" ;;
  all_search_terms <-- redis_hget report_key "all_search_terms" ;;
  ret (source_id, title_search_terms, all_search_terms).

(** Lines 243-258 of [Controller.__print_report]: fetch the stored fields,
    build the decorator chain and render it (the text written to the
    output file).  A missing field raises: [len(None)] on a term field, or
    [" ... " + None] in [ReportBase.report_text] on the source id. *)
Definition generate_report (newsapi : NewsApi) (report_id : Z) : M string :=
  fields <-- get_report_data report_id ;;
  match fields with
  | (Some source_id, Some title_search_terms, Some all_search_terms) =>
      ret (report_text newsapi
             (build_report source_id title_search_terms all_search_terms))
  | _ => raise
  end.

(* ------------------------------------------------------------------ *)
(** ** mvc.py: the rest of the [Controller] and the [View] listing *)

(** The loop of [Controller.__create_report] after the name and source id
    are read.  Each iteration is one [View.add_to_report] answer (the
    option, already converted by [int]) paired with the line a following
    [View.search_term] call returns (read only for options 1 and 2).  Any
    other option saves the report with the comma-joined term lists and
    ends the loop.  Running out of answers raises (end of input). *)
Fixpoint create_report_loop (report_name source_id : string)
    (answers : list (Z * string)) (title_search_terms all_search_terms : list string)
    : M unit :=
  match answers with
  | [] => raise
  | (option, search_term) :: answers' =>
      if (option =? 1)%Z then
        create_report_loop report_name source_id answers'
          (title_search_terms ++ [search_term]) all_search_terms
      else if (option =? 2)%Z then
        create_report_loop report_name source_id answers'
          title_search_terms (all_search_terms ++ [search_term])
      else
        create_report report_name source_id (serialize_terms title_search_terms)
          (serialize_terms all_search_terms) ;;; ret tt
  end.

(** [Controller.__create_report], given the answers of [View.create_report]
    and of the menu loop. *)
Definition controller_create_report (report_name source_id : string)
    (answers : list (Z * string)) : M unit :=
  create_report_loop report_name source_id answers [] [].

(** The lines [View.print_report] prints, [i] counting from 1:
    ["(" + str(i) + ") " + report]; a [None] name makes the concatenation
    raise [TypeError]. *)
Fixpoint view_report_lines (i : Z) (report_names : list (option string))
    : option (list string) :=
  match report_names with
  | [] => Some []
  | report :: report_names' =>
      match report with
      | None => None
      | Some report =>
          (fun lines => ("(" +:+ py_str_int i +:+ ") " +:+ report) :: lines)
            <$> view_report_lines (i + 1) report_names'
      end
  end.

(** Python's [l[i]] on a list: a negative index counts from the end;
    out of range raises [IndexError]. *)
Definition py_index {A} (l : list A) (i : Z) : option A :=
  let j := if (i <? 0)%Z then (i + Z.of_nat (length l))%Z else i in
  if (0 <=? j)%Z then l !! Z.to_nat j else None.

(** [Controller.__print_report] for the report number [report_id] the user
    types (already converted by [int]): the names are listed, the chosen
    name is looked up for the log line (["Printing report: name=" +
    report_names[report_id - 1]]), and the report is generated.  The
    result is the listing printed and the text written to the output
    file. *)
Definition controller_print_report (newsapi : NewsApi) (report_id : Z)
    : M (list string * string) :=
  report_names <-- get_report_names ;;
  lines <-- lift (view_report_lines 1 report_names) ;;
  report_name <-- lift (py_index report_names (report_id - 1)) ;;
  _ <-- lift report_name ;;
  text <-- generate_report newsapi report_id ;;
  ret (lines, text).

(* ------------------------------------------------------------------ *)
(** ** logger.py and the logger chain of [App.setup] *)

#[local] Set Warnings "-register-all".

(** A logger of the chain, holding the next logger ([None] at the end). *)
Inductive Logger : Type :=
| ConsoleLogger (next_logger : option Logger)
| FileLogger (next_logger : option Logger) (log_filename : string)
| DatabaseLogger (next_logger : option Logger).

(** What a log call touches: the database, the files (their contents),
    the lines printed on stdout, and a clock; [stamp t] is the text of
    [str(datetime.datetime.now())] at the [t]-th reading of the clock. *)
Record world := mk_world {
  w_db : db;
  w_files : gmap string string;
  w_stdout : list string;
  w_ticks : nat;
}.

Definition set_db (d : db) (w : world) : world :=
  mk_world d (w_files w) (w_stdout w) (w_ticks w).

Definition tick (w : world) : world :=
  mk_world (w_db w) (w_files w) (w_stdout w) (S (w_ticks w)).

(** [f.write(line)] on a file opened in append mode. *)
Definition append_file (log_filename line : string) (w : world) : world :=
  mk_world (w_db w)
    (<[log_filename := default "" (w_files w !! log_filename) +:+ line]> (w_files w))
    (w_stdout w) (w_ticks w).

(** [print(line)]. *)
Definition print_line (line : string) (w : world) : world :=
  mk_world (w_db w) (w_files w) (w_stdout w ++ [line]) (w_ticks w).

(** The [log] methods: each logger does its own output, then
    [Logger.log] passes the message to the next logger, if any. *)
Fixpoint logger_log (stamp : nat -> string) (lg : Logger) (message : string)
    (w : world) : option world :=
  let now := stamp (w_ticks w) in
  match lg with
  | ConsoleLogger next_logger =>
      let w' := print_line (now +:+ ": " +:+ message) (tick w) in
      match next_logger with
      | None => Some w'
      | Some next => logger_log stamp next message w'
      end
  | FileLogger next_logger log_filename =>
      let w' := append_file log_filename (now +:+ ": " +:+ message +:+ nl) (tick w) in
      match next_logger with
      | None => Some w'
      | Some next => logger_log stamp next message w'
      end
  | DatabaseLogger next_logger =>
      match redis_hset "log" now message (w_db w) with
      | None => None
      | Some (_, d') =>
          let w' := set_db d' (tick w) in
          match next_logger with
          | None => Some w'
          | Some next => logger_log stamp next message w'
          end
      end
  end.

(** The chain built by [App.setup] from the ["Logging"] section of the
    configuration: console innermost, then file, then database. *)
Definition setup_logger (console file database log_filename : string)
    : option Logger :=
  let logger := None in
  let logger := if String.eqb console "TRUE" then Some (ConsoleLogger logger) else logger in
  let logger := if String.eqb file "TRUE" then Some (FileLogger logger log_filename) else logger in
  if String.eqb database "TRUE" then Some (DatabaseLogger logger) else logger.

(** [App.log]. *)
Definition app_log (stamp : nat -> string) (logger : option Logger)
    (message : string) (w : world) : option world :=
  match logger with
  | None => Some w
  | Some lg => logger_log stamp lg message w
  end.

(* ------------------------------------------------------------------ *)
(** ** Auxiliary definitions for the statements *)

(** The count [create_report] reads: an absent key counts as 0. *)
Definition stored_count (d : db) : option Z :=
  match d !! count_key with
  | None => Some 0
  | Some (RStr c) => py_int c
  | Some (RHash _) => None
  end.

(** The fields of the hash at [k] ([∅] when there is none). *)
Definition hash_at (d : db) (k : string) : gmap string string :=
  match d !! k with
  | Some (RHash h) => h
  | _ => ∅
  end.

(** A key that does not hold a plain string (so [HSET]/[HGET] accept it). *)
Definition not_str (d : db) (k : string) : Prop :=
  forall v, d !! k <> Some (RStr v).

(** The hash [create_report] leaves at the new report key. *)
Definition report_record (report_name source_id title_search_terms
    all_search_terms : string) (h : gmap string string) : gmap string string :=
  <["all_search_terms" := all_search_terms]>
  (<["title_search_terms" := title_search_terms]>
   (<["source_id" := source_id]>
    (<["report_name" := report_name]> h))).

(** Concatenation of a list of strings. *)
Fixpoint cat (l : list string) : string :=
  match l with
  | [] => ""
  | x :: l' => x +:+ cat l'
  end.

(** The pieces of a report as §4.2 of the spec describes them. *)
Definition headline_entry (a : article) : string :=
  "Title: " +:+ py_str (title a) +:+ nl +:+
  "Description: " +:+ py_str (description a) +:+ nl +:+ nl.

Definition title_entry (a : article) : string :=
  "Title: " +:+ py_str (title a) +:+ nl +:+
  "Author: " +:+ py_str (author a) +:+ nl +:+ nl.

Definition content_entry (a : article) : string :=
  "Title: " +:+ py_str (title a) +:+ nl +:+
  "Content: " +:+ py_str (content a) +:+ nl +:+ nl.

Definition base_text (newsapi : NewsApi) (source_id : string) : string :=
  "Headlines from " +:+ source_id +:+ nl +:+ nl +:+
  cat (map headline_entry (get_top_headlines newsapi source_id)).

Definition title_block (newsapi : NewsApi) (source_id term : string) : string :=
  separator +:+ nl +:+ nl +:+ "Search results for '" +:+ term +:+
  "' in the title only: " +:+ nl +:+ nl +:+
  cat (map title_entry (get_everything_qintitle newsapi source_id term)).

Definition all_block (newsapi : NewsApi) (source_id term : string) : string :=
  separator +:+ nl +:+ nl +:+ "Search results for '" +:+ term +:+
  "' in the title or content: " +:+ nl +:+ nl +:+
  cat (map content_entry (get_everything_q newsapi source_id term)).

(** Python's [c in s]. *)
Fixpoint has_char (c : ascii) (s : string) : bool :=
  match s with
  | EmptyString => false
  | String x s' => if ascii_dec x c then true else has_char c s'
  end.

(** The arguments of one [create_report] call. *)
Record create_input := mk_create_input {
  in_report_name : string;
  in_source_id : string;
  in_title_search_terms : string;
  in_all_search_terms : string;
}.

Definition input_record (x : create_input) : gmap string string :=
  report_record (in_report_name x) (in_source_id x) (in_title_search_terms x)
    (in_all_search_terms x) ∅.

(** [create_report] called once per input, in order. *)
Fixpoint create_reports (l : list create_input) : M unit :=
  match l with
  | [] => ret tt
  | x :: l' =>
      create_report (in_report_name x) (in_source_id x)
        (in_title_search_terms x) (in_all_search_terms x) ;;;
      create_reports l'
  end.

(** The database after creating the reports [l] in an empty database. *)
Definition created_db (l : list create_input) (d : db) : Prop :=
  d !! count_key =
    (match l with [] => None | _ => Some (RStr (py_str_int (Z.of_nat (length l)))) end) /\
  (forall i : Z, d !! report_key i =
     if decide (1 <= i <= Z.of_nat (length l))
     then (fun x => RHash (input_record x)) <$> l !! Z.to_nat (i - 1)
     else None) /\
  (forall k, k <> count_key -> (forall i, k <> report_key i) -> d !! k = None).

(** The terms typed after the menu option [o], in order. *)
Fixpoint entered_terms (o : Z) (answers : list (Z * string)) : list string :=
  match answers with
  | [] => []
  | (option, search_term) :: answers' =>
      if (option =? o)%Z then search_term :: entered_terms o answers'
      else entered_terms o answers'
  end.

(** What a log call may do to the world: only the key ["log"] of the
    database changes, lines are only added to stdout, and text is only
    added at the end of a file. *)
Definition log_frame (w w' : world) : Prop :=
  (forall k, k <> "log" -> w_db w' !! k = w_db w !! k) /\
  (exists s, w_stdout w' = (w_stdout w ++ s)%list) /\
  (forall f c, w_files w !! f = Some c -> exists s, w_files w' !! f = Some (c +:+ s)).

(* ------------------------------------------------------------------ *)
(** ** [repr] of a [str] and [str] of a list *)

Definition squote : ascii := "'".
Definition dquote : ascii := ascii_of_nat 34.
Definition backslash : ascii := "\".

Definition hex_digit (n : nat) : ascii :=
  match String.get n "0123456789abcdef" with Some c => c | None => "0"%char end.

(** One character inside [repr(s)], [quote] being the enclosing quote:
    the quote and the backslash are escaped, tab, line feed and carriage
    return are written [\t], [\n], [\r], and the other characters that are
    not printable (below space, U+007F to U+00A0, U+00AD) as [\xhh]. *)
Definition py_repr_char (quote c : ascii) : string :=
  let n := nat_of_ascii c in
  if Ascii.eqb c quote || Ascii.eqb c backslash then String backslash (String c "")
  else if (n =? 9)%nat then String backslash "t"
  else if (n =? 10)%nat then String backslash "n"
  else if (n =? 13)%nat then String backslash "r"
  else if ((n <? 32) || (n =? 127) || ((128 <=? n) && (n <=? 160)) || (n =? 173))%nat
  then String backslash (String "x" (String (hex_digit (n / 16)) (String (hex_digit (n mod 16)) "")))
  else String c "".

Fixpoint py_repr_chars (quote : ascii) (s : string) : string :=
  match s with
  | EmptyString => ""
  | String c s' => py_repr_char quote c +:+ py_repr_chars quote s'
  end.

(** [repr(s)]: in double quotes when [s] has a single quote and no double
    quote, in single quotes otherwise. *)
Definition py_repr_str (s : string) : string :=
  let quote := if has_char squote s && negb (has_char dquote s) then dquote else squote in
  String quote (py_repr_chars quote s +:+ String quote "").

(** [str] of a list of [str] or [None]: ["[" + ", ".join(map(repr, l)) + "]"]. *)
Definition py_str_list (l : list (option string)) : string :=
  "[" +:+ join ", " (map (fun o => match o with None => "None" | Some s => py_repr_str s end) l)
  +:+ "]".

(* ------------------------------------------------------------------ *)
(** ** The [Model] methods with their [App().log] calls *)

(** [Model.create_report]: the database operations, then
    [App().log("Report inserted into database: name=" + report_name)],
    with [logger] the chain of the [App] singleton. *)
Definition model_create_report (stamp : nat -> string) (logger : option Logger)
    (report_name source_id title_search_terms all_search_terms : string) (w : world)
    : option (option Z * world) :=
  match create_report report_name source_id title_search_terms all_search_terms (w_db w) with
  | None => None
  | Some (r, d) =>
      match app_log stamp logger ("Report inserted into database: name=" +:+ report_name)
              (set_db d w) with
      | None => None
      | Some w' => Some (r, w')
      end
  end.

(** [Model.create_report] called once per input, in order. *)
Fixpoint model_create_reports (stamp : nat -> string) (logger : option Logger)
    (l : list create_input) (w : world) : option (unit * world) :=
  match l with
  | [] => Some (tt, w)
  | x :: l' =>
      match model_create_report stamp logger (in_report_name x) (in_source_id x)
              (in_title_search_terms x) (in_all_search_terms x) w with
      | None => None
      | Some (_, w') => model_create_reports stamp logger l' w'
      end
  end.

(** [Model.get_report_names]: the database operations, then
    [App().log("Report names retrieved: " + str(report_names))]. *)
Definition model_get_report_names (stamp : nat -> string) (logger : option Logger)
    (w : world) : option (list (option string) * world) :=
  match get_report_names (w_db w) with
  | None => None
  | Some (report_names, d) =>
      match app_log stamp logger ("Report names retrieved: " +:+ py_str_list report_names)
              (set_db d w) with
      | None => None
      | Some w' => Some (report_names, w')
      end
  end.

(* ================================================================== *)
(** * Properties *)

(* ------------------------------------------------------------------ *)
(** ** Strings *)

(** stdpp makes [String.append] [simpl never]; its two equations. *)
Lemma append_nil_s (b : string) : "" +:+ b = b.
Proof. reflexivity. Qed.

Lemma append_cons_s (x : ascii) (a b : string) :
  String x a +:+ b = String x (a +:+ b).
Proof. reflexivity. Qed.

Lemma append_assoc_s (a b c : string) : (a +:+ b) +:+ c = a +:+ (b +:+ c).
Proof. induction a as [|x a IH]; [done | by rewrite !append_cons_s, IH]. Qed.

Lemma append_nil_r_s (a : string) : a +:+ "" = a.
Proof. induction a as [|x a IH]; [done | by rewrite append_cons_s, IH]. Qed.

Lemma append_prefix_inj (p a b : string) : p +:+ a = p +:+ b -> a = b.
Proof.
  induction p as [|x p IH]; [done |].
  rewrite !append_cons_s. intros [=]; auto.
Qed.

(* ------------------------------------------------------------------ *)
(** ** [int(str(n)) = n] *)

Lemma parse_digits_app (acc : Z) (a b : string) :
  parse_digits acc (a +:+ b) = parse_digits acc a ≫= fun v => parse_digits v b.
Proof.
  revert acc. induction a as [|c a IH]; intros acc; simpl; [done |].
  destruct (digit_val c); [apply IH | done].
Qed.

Lemma pretty_N_go_app (x : N) (s : string) :
  pretty_N_go x s = pretty_N_go x "" +:+ s.
Proof.
  revert s. induction (N.lt_wf_0 x) as [x _ IH]; intros s.
  destruct (decide (x = 0)%N) as [->|Hx]; [done |].
  rewrite !(pretty_N_go_step x) by lia.
  assert (x `div` 10 < x)%N as Hlt by (apply N.div_lt; lia).
  rewrite (IH _ Hlt (String _ s)), (IH _ Hlt (String _ "")).
  by rewrite append_assoc_s.
Qed.

Lemma digit_val_pretty_N_char (d : N) :
  (d < 10)%N -> digit_val (pretty_N_char d) = Some (Z.of_N d).
Proof.
  intros Hd.
  assert (d = 0 ∨ d = 1 ∨ d = 2 ∨ d = 3 ∨ d = 4 ∨ d = 5 ∨ d = 6
          ∨ d = 7 ∨ d = 8 ∨ d = 9)%N as Hcases by lia.
  by repeat destruct Hcases as [-> | Hcases]; [..| subst].
Qed.

Lemma parse_pretty_N_go (x : N) :
  parse_digits 0 (pretty_N_go x "") = Some (Z.of_N x).
Proof.
  induction (N.lt_wf_0 x) as [x _ IH].
  destruct (decide (x = 0)%N) as [->|Hx]; [done |].
  rewrite pretty_N_go_step by lia. rewrite pretty_N_go_app.
  rewrite parse_digits_app, IH by (apply N.div_lt; lia). simpl.
  rewrite digit_val_pretty_N_char by (apply N.mod_lt; lia). simpl.
  f_equal. pose proof (N.div_mod x 10 ltac:(lia)). lia.
Qed.

Lemma pretty_N_go_nonempty (x : N) :
  (0 < x)%N -> pretty_N_go x "" <> "".
Proof.
  intros Hx. rewrite pretty_N_go_step, pretty_N_go_app by done.
  generalize (pretty_N_go (x `div` 10) ""). intros s. by destruct s.
Qed.

Lemma parse_body_digits (acc v : Z) (s : string) :
  parse_digits acc s = Some v -> parse_body acc false s = Some v.
Proof.
  revert acc. induction s as [|c s IH]; intros acc; simpl; [done |].
  destruct (digit_val c); [apply IH | done].
Qed.

Lemma digit_not_space (c : ascii) (d : Z) :
  digit_val c = Some d -> py_isspace c = false.
Proof.
  unfold digit_val, py_isspace. intros Hd.
  destruct (existsb _ _) eqn:He; [| done].
  apply existsb_exists in He as (x & Hx & Heq). apply Nat.eqb_eq in Heq.
  rewrite Heq in Hd. simpl in Hx.
  repeat destruct Hx as [<- | Hx]; try done; simpl in Hd; discriminate.
Qed.

Lemma py_int_digits (s : string) (v : Z) :
  s <> "" -> parse_digits 0 s = Some v -> py_int s = Some v.
Proof.
  destruct s as [|c r]; [done |]. intros _ Hp. simpl in Hp.
  destruct (digit_val c) as [d|] eqn:Hd; [| done].
  unfold py_int. simpl. rewrite (digit_not_space c d Hd).
  destruct (ascii_dec c "-") as [->|_]; [done |].
  destruct (ascii_dec c "+") as [->|_]; [done |].
  simpl. rewrite Hd. replace (0 * 10 + d) with d in Hp by lia.
  by apply parse_body_digits.
Qed.

Lemma py_int_pretty_pos (p : positive) :
  pretty p <> "" /\ parse_digits 0 (pretty p) = Some (Zpos p).
Proof.
  unfold pretty, pretty_positive, pretty, pretty_N.
  rewrite decide_False by done. split.
  - by apply pretty_N_go_nonempty.
  - by rewrite parse_pretty_N_go.
Qed.

(** Reading back a count written with [str] gives the count. *)
Lemma py_int_py_str_int (n : Z) : py_int (py_str_int n) = Some n.
Proof.
  unfold py_str_int. destruct n as [|p|p]; [done | |].
  - destruct (py_int_pretty_pos p) as [Hne Hp]. by apply py_int_digits.
  - change (pretty (Zneg p)) with (String "-" (pretty p)).
    destruct (py_int_pretty_pos p) as [Hne Hp].
    destruct (pretty p) as [|c r]; [done |].
    simpl in Hp. destruct (digit_val c) as [d|] eqn:Hd; [| done].
    unfold py_int. simpl. destruct (ascii_dec "-" "-") as [_|]; [| done].
    rewrite Hd. replace (0 * 10 + d) with d in Hp by lia.
    by rewrite (parse_body_digits _ _ _ Hp).
Qed.

Lemma report_key_inj (i j : Z) : report_key i = report_key j -> i = j.
Proof.
  unfold report_key. intros H. apply append_prefix_inj in H.
  pose proof (py_int_py_str_int i) as Hi. rewrite H, py_int_py_str_int in Hi.
  congruence.
Qed.

Lemma report_key_ne_count (i : Z) : report_key i <> count_key.
Proof.
  unfold report_key, count_key. intros H.
  change "report:count" with ("report:" +:+ "count") in H.
  apply append_prefix_inj in H.
  pose proof (py_int_py_str_int i) as Hi. by rewrite H in Hi.
Qed.

(* ------------------------------------------------------------------ *)
(** ** Running the Redis operations *)

Lemma bind_run {A B} (m : M A) (k : A -> M B) (d d' : db) (x : A) :
  m d = Some (x, d') -> bind m k d = k x d'.
Proof. unfold bind. by intros ->. Qed.

Lemma hset_run (k f v : string) (d : db) :
  not_str d k ->
  redis_hset k f v d = Some (tt, <[k := RHash (<[f := v]> (hash_at d k))]> d).
Proof.
  unfold redis_hset, hash_at, not_str. intros Hk.
  destruct (d !! k) as [[w|h]|]; [by destruct (Hk w) | done |].
  by rewrite insert_empty.
Qed.

Lemma hget_run (k f : string) (d : db) :
  not_str d k -> redis_hget k f d = Some (hash_at d k !! f, d).
Proof.
  unfold redis_hget, hash_at, not_str. intros Hk.
  destruct (d !! k) as [[w|h]|]; [by destruct (Hk w) | done | done].
Qed.

Lemma hash_at_insert (d : db) (k : string) (h : gmap string string) :
  hash_at (<[k := RHash h]> d) k = h.
Proof. unfold hash_at. by rewrite lookup_insert_eq. Qed.

Lemma not_str_insert_hash (d : db) (k k' : string) (h : gmap string string) :
  not_str d k' -> not_str (<[k := RHash h]> d) k'.
Proof.
  unfold not_str. intros Hk v. destruct (decide (k = k')) as [->|Hne].
  - by rewrite lookup_insert_eq.
  - rewrite lookup_insert_ne by done. apply Hk.
Qed.

(** One call of [Model.create_report]: the count [n] is read, [n + 1] is
    written back as the count, the four fields are written into the hash
    at ["report:<n+1>"], and the call returns [None]. *)
Lemma create_report_run (d : db) (n : Z) (report_name source_id
    title_search_terms all_search_terms : string) :
  stored_count d = Some n ->
  not_str d (report_key (n + 1)) ->
  create_report report_name source_id title_search_terms all_search_terms d =
  Some (None,
        <[report_key (n + 1) :=
            RHash (report_record report_name source_id title_search_terms
                     all_search_terms (hash_at d (report_key (n + 1))))]>
        (<[count_key := RStr (py_str_int (n + 1))]> d)).
Proof.
  intros Hn Hk. unfold create_report.
  assert (Hcount : (count <-- redis_get count_key ;;
                    match count with
                    | None => ret 1%Z
                    | Some c => n <-- lift (py_int c) ;; ret (n + 1)%Z
                    end) d = Some (n + 1, d)).
  { unfold stored_count in Hn. unfold bind, redis_get.
    destruct (d !! count_key) as [[c|h]|]; simplify_eq/=; [| done].
    unfold lift. by rewrite Hn. }
  unfold bind at 1 in Hcount. unfold bind at 1.
  destruct (redis_get count_key d) as [[c d1]|]; [| done].
  rewrite (bind_run _ _ _ _ _ Hcount).
  erewrite bind_run by reflexivity.
  set (k := report_key (n + 1)).
  set (d1' := <[count_key := RStr (py_str_int (n + 1))]> d).
  assert (Hk1 : not_str d1' k).
  { unfold d1', not_str. rewrite lookup_insert_ne
      by (symmetry; apply report_key_ne_count). apply Hk. }
  assert (Hh : hash_at d1' k = hash_at d k).
  { unfold d1', hash_at. by rewrite lookup_insert_ne
      by (symmetry; apply report_key_ne_count). }
  erewrite bind_run by (apply hset_run, Hk1).
  erewrite bind_run by (apply hset_run, not_str_insert_hash, Hk1).
  erewrite bind_run
    by (apply hset_run, not_str_insert_hash, not_str_insert_hash, Hk1).
  erewrite bind_run
    by (apply hset_run, not_str_insert_hash, not_str_insert_hash,
          not_str_insert_hash, Hk1).
  unfold ret. rewrite !hash_at_insert, !insert_insert_eq, Hh.
  done.
Qed.

Lemma get_report_data_run (report_id : Z) (d : db) :
  not_str d (report_key report_id) ->
  get_report_data report_id d =
  Some ((hash_at d (report_key report_id) !! "source_id",
         hash_at d (report_key report_id) !! "title_search_terms",
         hash_at d (report_key report_id) !! "all_search_terms"), d).
Proof.
  intros Hk. unfold get_report_data.
  erewrite bind_run by (apply hget_run, Hk).
  erewrite bind_run by (apply hget_run, Hk).
  erewrite bind_run by (apply hget_run, Hk).
  reflexivity.
Qed.

Lemma generate_report_run (newsapi : NewsApi) (report_id : Z) (d : db)
    (source_id title_search_terms all_search_terms : string) :
  get_report_data report_id d =
    Some ((Some source_id, Some title_search_terms, Some all_search_terms), d) ->
  generate_report newsapi report_id d =
  Some (report_text newsapi
          (build_report source_id title_search_terms all_search_terms), d).
Proof. intros Hget. unfold generate_report. by rewrite (bind_run _ _ _ _ _ Hget). Qed.

(* ------------------------------------------------------------------ *)
(** ** The rendered text, block by block *)

(** An accumulating loop [for a in l: s = s + f(a)]. *)
Lemma fold_left_append {A} (f : A -> string) (l : list A) (init : string) :
  fold_left (fun acc a => acc +:+ f a) l init = init +:+ cat (map f l).
Proof.
  revert init. induction l as [|a l IH]; intros init; simpl.
  - by rewrite append_nil_r_s.
  - by rewrite IH, append_assoc_s.
Qed.

Lemma report_text_base (newsapi : NewsApi) (source_id : string) :
  report_text newsapi (ReportBase source_id) = base_text newsapi source_id.
Proof.
  simpl. rewrite (fold_left_append headline_entry).
  unfold base_text. by rewrite !append_assoc_s.
Qed.

Lemma report_text_title (newsapi : NewsApi) (r : Report) (source_id term : string) :
  report_text newsapi (ReportTitleSearch r source_id term) =
  report_text newsapi r +:+ title_block newsapi source_id term.
Proof.
  simpl. rewrite (fold_left_append title_entry).
  unfold title_block. by rewrite !append_assoc_s.
Qed.

Lemma report_text_all (newsapi : NewsApi) (r : Report) (source_id term : string) :
  report_text newsapi (ReportAllSearch r source_id term) =
  report_text newsapi r +:+ all_block newsapi source_id term.
Proof.
  simpl. rewrite (fold_left_append content_entry).
  unfold all_block. by rewrite !append_assoc_s.
Qed.

Lemma report_text_fold_title (newsapi : NewsApi) (source_id : string) (terms : list string) (r : Report) :
  report_text newsapi
    (fold_left (fun report search_term =>
                  ReportTitleSearch report source_id search_term) terms r) =
  report_text newsapi r +:+ cat (map (title_block newsapi source_id) terms).
Proof.
  revert r. induction terms as [|t terms IH]; intros r; simpl.
  - by rewrite append_nil_r_s.
  - by rewrite IH, report_text_title, append_assoc_s.
Qed.

Lemma report_text_fold_all (newsapi : NewsApi) (source_id : string) (terms : list string) (r : Report) :
  report_text newsapi
    (fold_left (fun report search_term =>
                  ReportAllSearch report source_id search_term) terms r) =
  report_text newsapi r +:+ cat (map (all_block newsapi source_id) terms).
Proof.
  revert r. induction terms as [|t terms IH]; intros r; simpl.
  - by rewrite append_nil_r_s.
  - by rewrite IH, report_text_all, append_assoc_s.
Qed.

Lemma report_text_build (newsapi : NewsApi) (source_id title_search_terms all_search_terms : string) :
  report_text newsapi
    (build_report source_id title_search_terms all_search_terms) =
  base_text newsapi source_id +:+
  cat (map (title_block newsapi source_id) (terms_list title_search_terms)) +:+
  cat (map (all_block newsapi source_id) (terms_list all_search_terms)).
Proof.
  unfold build_report.
  by rewrite report_text_fold_all, report_text_fold_title, report_text_base,
    append_assoc_s.
Qed.

(* ================================================================== *)
(** * Claims *)

(** C1: the end-to-end scenario of §8.  A report "Sports" with source id
    "cbc-news", title term "hockey" and no all term is created in an empty
    database; with an article source whose top headlines for "cbc-news"
    are one article {title "H1", description "D1"} and whose title-only
    search for "hockey" is one article {title "T1", author "A1"},
    generating report 1 writes exactly the expected text. *)
Theorem scenario_sports_report (newsapi : NewsApi) (h1 t1 : article) :
  get_top_headlines newsapi "cbc-news" = [h1] ->
  title h1 = Some "H1" -> description h1 = Some "D1" ->
  get_everything_qintitle newsapi "cbc-news" "hockey" = [t1] ->
  title t1 = Some "T1" -> author t1 = Some "A1" ->
  fst <$> (create_report "Sports" "cbc-news" (serialize_terms ["hockey"])
             (serialize_terms []) ;;; generate_report newsapi 1) ∅ =
  Some ("Headlines from cbc-news" +:+ nl +:+ nl +:+
        "Title: H1" +:+ nl +:+ "Description: D1" +:+ nl +:+ nl +:+
        "****************************************" +:+ nl +:+ nl +:+
        "Search results for 'hockey' in the title only: " +:+ nl +:+ nl +:+
        "Title: T1" +:+ nl +:+ "Author: A1" +:+ nl +:+ nl).
Proof.
  intros Hh Hh1 Hh2 Ht Ht1 Ht2.
  rewrite (bind_run _ _ _ _ _
             (create_report_run ∅ 0 "Sports" "cbc-news" "hockey" ""
                ltac:(by unfold stored_count; rewrite lookup_empty)
                (fun v => ltac:(by rewrite lookup_empty)))).
  rewrite (generate_report_run newsapi 1 _ "cbc-news" "hockey" "")
    by (vm_compute; reflexivity).
  rewrite report_text_build.
  change (terms_list "hockey") with ["hockey"].
  change (terms_list "") with (@nil string).
  unfold base_text, title_block. simpl. rewrite Hh, Ht. simpl.
  unfold headline_entry, title_entry. rewrite Hh1, Hh2, Ht1, Ht2.
  reflexivity.
Qed.

Lemma scenario_sports_report_witness :
  let newsapi := mk_newsapi
    (fun _ => [mk_article (Some "H1") None (Some "D1") None])
    (fun _ _ => [mk_article (Some "T1") (Some "A1") None None])
    (fun _ _ => []) in
  fst <$> (create_report "Sports" "cbc-news" (serialize_terms ["hockey"])
             (serialize_terms []) ;;; generate_report newsapi 1) ∅ =
  Some ("Headlines from cbc-news" +:+ nl +:+ nl +:+
        "Title: H1" +:+ nl +:+ "Description: D1" +:+ nl +:+ nl +:+
        "****************************************" +:+ nl +:+ nl +:+
        "Search results for 'hockey' in the title only: " +:+ nl +:+ nl +:+
        "Title: T1" +:+ nl +:+ "Author: A1" +:+ nl +:+ nl).
Proof.
  intros newsapi.
  exact (scenario_sports_report newsapi
           (mk_article (Some "H1") None (Some "D1") None)
           (mk_article (Some "T1") (Some "A1") None None)
           eq_refl eq_refl eq_refl eq_refl eq_refl eq_refl).
Defined.

(* ------------------------------------------------------------------ *)
(** ** Splitting a comma-joined list *)

Lemma split_on_no_sep (c : ascii) (x : string) :
  has_char c x = false -> split_on c x = [x].
Proof.
  induction x as [|a x IH]; [done |]. simpl.
  destruct (ascii_dec a c); [done |]. intros H. by rewrite IH.
Qed.

Lemma split_on_app_sep (c : ascii) (x y : string) :
  has_char c x = false -> split_on c (x +:+ String c y) = x :: split_on c y.
Proof.
  induction x as [|a x IH]; intros H.
  - rewrite append_nil_s. simpl. by destruct (ascii_dec c c).
  - rewrite append_cons_s. simpl in *.
    destruct (ascii_dec a c); [done |]. by rewrite IH.
Qed.

Lemma split_on_join (c : ascii) (l : list string) :
  l <> [] -> Forall (fun x => has_char c x = false) l ->
  split_on c (join (String c "") l) = l.
Proof.
  induction l as [|x l IH]; intros Hne Hl; [done |].
  apply Forall_cons in Hl as [Hx Hl].
  destruct l as [|y l].
  - by apply split_on_no_sep.
  - change (join (String c "") (x :: y :: l))
      with (x +:+ String c "" +:+ join (String c "") (y :: l)).
    rewrite append_cons_s, append_nil_s, split_on_app_sep by done.
    by rewrite IH.
Qed.

Lemma join_nonempty (c : ascii) (l : list string) :
  l <> [] -> l <> [""] -> join (String c "") l <> "".
Proof.
  destruct l as [|x [|y l]]; intros H1 H2; [done | simpl; by intros -> |].
  change (join (String c "") (x :: y :: l))
    with (x +:+ String c "" +:+ join (String c "") (y :: l)).
  destruct x; [rewrite append_nil_s | rewrite append_cons_s];
    rewrite ?append_cons_s; done.
Qed.

Lemma terms_list_serialize (l : list string) :
  Forall (fun x => has_char comma x = false) l -> l <> [""] ->
  terms_list (serialize_terms l) = l.
Proof.
  intros Hl Hne. destruct (decide (l = [])) as [->|Hnil]; [done |].
  pose proof (join_nonempty comma l Hnil Hne) as Hj.
  unfold terms_list, serialize_terms.
  change "," with (String comma "").
  assert (Hlen : (String.length (join (String comma "") l) =? 0)%nat = false)
    by (destruct (join (String comma "") l); done).
  rewrite Hlen. cbn [negb]. by apply split_on_join.
Qed.

(** After [create_report] at id [n + 1], the stored fields read back by
    [get_report_data]. *)
Lemma create_then_get (d : db) (n : Z) (report_name source_id
    title_search_terms all_search_terms : string) :
  stored_count d = Some n ->
  not_str d (report_key (n + 1)) ->
  exists d',
    create_report report_name source_id title_search_terms all_search_terms d =
      Some (None, d') /\
    get_report_data (n + 1) d' =
      Some ((Some source_id, Some title_search_terms, Some all_search_terms), d').
Proof.
  intros Hn Hk. eexists. split; [by apply create_report_run |].
  rewrite get_report_data_run.
  - rewrite hash_at_insert. unfold report_record.
    by simplify_map_eq.
  - intros v. by rewrite lookup_insert_eq.
Qed.

(** C3, as the claim states it, fails for the one-element list [[""]]: it
    has no comma, but [','.join([""])] is [""], which the controller reads
    back as no term at all. *)
Lemma serialize_single_empty_term :
  Forall (fun x => has_char comma x = false) [""] /\
  terms_list (serialize_terms [""]) <> [""].
Proof.
  split; [by repeat constructor |].
  intros H. vm_compute in H. discriminate H.
Qed.

(** C3 (amended): for every term list in which no term contains a comma,
    other than the one-element list [[""]], splitting the comma-joined
    string back (the controller's split, where [""] gives no term) yields
    the original list; [[]] serializes to [""] and comes back as [[]],
    while [[""]] also serializes to [""] and comes back as [[]].  So
    [create_report] followed by [get_report_data] on the new id returns
    the source id and the stored strings, which split back to the
    original lists. *)
Theorem serialize_terms_roundtrip :
  (forall l : list string,
     Forall (fun x => has_char comma x = false) l -> l <> [""] ->
     terms_list (serialize_terms l) = l) /\
  serialize_terms [] = "" /\ terms_list "" = [] /\
  serialize_terms [""] = "" /\
  (forall (d : db) (n : Z) (report_name source_id : string)
          (title_terms all_terms : list string),
     stored_count d = Some n ->
     not_str d (report_key (n + 1)) ->
     Forall (fun x => has_char comma x = false) title_terms -> title_terms <> [""] ->
     Forall (fun x => has_char comma x = false) all_terms -> all_terms <> [""] ->
     exists d',
       create_report report_name source_id (serialize_terms title_terms)
         (serialize_terms all_terms) d = Some (None, d') /\
       get_report_data (n + 1) d' =
         Some ((Some source_id, Some (serialize_terms title_terms),
                Some (serialize_terms all_terms)), d') /\
       terms_list (serialize_terms title_terms) = title_terms /\
       terms_list (serialize_terms all_terms) = all_terms).
Proof.
  split; [exact terms_list_serialize |].
  split; [done | split; [done | split; [done |]]].
  intros d n report_name source_id title_terms all_terms Hn Hk Ht Ht' Ha Ha'.
  destruct (create_then_get d n report_name source_id
              (serialize_terms title_terms) (serialize_terms all_terms) Hn Hk)
    as (d' & Hc & Hg).
  exists d'. split; [done | split; [done |]].
  split; by apply terms_list_serialize.
Qed.

Lemma serialize_terms_roundtrip_witness :
  terms_list (serialize_terms ["a"; "b"; "c"]) = ["a"; "b"; "c"] /\
  exists d',
    create_report "Sports" "cbc-news" (serialize_terms ["hockey"; "nhl"])
      (serialize_terms []) ∅ = Some (None, d') /\
    get_report_data (0 + 1) d' =
      Some ((Some "cbc-news", Some (serialize_terms ["hockey"; "nhl"]),
             Some (serialize_terms [])), d') /\
    terms_list (serialize_terms ["hockey"; "nhl"]) = ["hockey"; "nhl"] /\
    terms_list (serialize_terms []) = [].
Proof.
  split.
  - apply (proj1 serialize_terms_roundtrip); [by repeat constructor | done].
  - apply (proj2 (proj2 (proj2 (proj2 serialize_terms_roundtrip))) ∅ 0).
    + by unfold stored_count; rewrite lookup_empty.
    + intros v. by rewrite lookup_empty.
    + by repeat constructor.
    + done.
    + by constructor.
    + done.
Defined.

(** C4: for every stored definition, the generated report is the base
    text, then one title-search block per stored title term in order, then
    one all-search block per stored all term in order; each decorator's
    text is the text of the report it wraps followed by its own block, so
    the inner text is an unmodified prefix.  With title terms [t1; t2] and
    no all term the text is the base text, the block of [t1], the block of
    [t2]. *)
Theorem report_blocks_in_order (newsapi : NewsApi) :
  (forall (d : db) (report_id : Z) (source_id title_search_terms
           all_search_terms : string),
     get_report_data report_id d =
       Some ((Some source_id, Some title_search_terms, Some all_search_terms), d) ->
     generate_report newsapi report_id d =
       Some (base_text newsapi source_id +:+
             cat (map (title_block newsapi source_id)
                      (terms_list title_search_terms)) +:+
             cat (map (all_block newsapi source_id)
                      (terms_list all_search_terms)), d)) /\
  (forall (r : Report) (source_id search_term : string),
     report_text newsapi (ReportTitleSearch r source_id search_term) =
     report_text newsapi r +:+ title_block newsapi source_id search_term) /\
  (forall (r : Report) (source_id search_term : string),
     report_text newsapi (ReportAllSearch r source_id search_term) =
     report_text newsapi r +:+ all_block newsapi source_id search_term) /\
  (forall (source_id title_search_terms t1 t2 : string),
     terms_list title_search_terms = [t1; t2] ->
     report_text newsapi (build_report source_id title_search_terms "") =
     base_text newsapi source_id +:+ title_block newsapi source_id t1 +:+
     title_block newsapi source_id t2).
Proof.
  split; [| split; [| split]].
  - intros d report_id source_id ts als Hget.
    rewrite (generate_report_run _ _ _ _ _ _ Hget).
    by rewrite report_text_build.
  - apply report_text_title.
  - apply report_text_all.
  - intros source_id ts t1 t2 Hts.
    rewrite report_text_build, Hts. simpl.
    by rewrite !append_nil_r_s.
Qed.

Lemma report_blocks_in_order_witness :
  let newsapi := mk_newsapi
    (fun _ => [mk_article (Some "H1") None (Some "D1") None])
    (fun _ t => [mk_article (Some t) (Some "A1") None None])
    (fun _ _ => []) in
  generate_report newsapi 1
    (<[report_key 1 := RHash (report_record "Sports" "cbc-news" "nba,nhl" "" ∅)]>
     (<[count_key := RStr "1"]> ∅)) =
  Some (base_text newsapi "cbc-news" +:+
        cat (map (title_block newsapi "cbc-news") (terms_list "nba,nhl")) +:+
        cat (map (all_block newsapi "cbc-news") (terms_list "")),
        <[report_key 1 := RHash (report_record "Sports" "cbc-news" "nba,nhl" "" ∅)]>
        (<[count_key := RStr "1"]> ∅)) /\
  report_text newsapi (build_report "cbc-news" "nba,nhl" "") =
  base_text newsapi "cbc-news" +:+ title_block newsapi "cbc-news" "nba" +:+
  title_block newsapi "cbc-news" "nhl".
Proof.
  intros newsapi. split.
  - apply (proj1 (report_blocks_in_order newsapi)). vm_compute. reflexivity.
  - apply (proj2 (proj2 (proj2 (report_blocks_in_order newsapi)))).
    vm_compute. reflexivity.
Defined.

(** C7: a search term containing a comma does not survive the round trip:
    [create_report] stores [["a,b"]] as ["a,b"] without complaint, and the
    controller reads it back as the two terms ["a"] and ["b"], rendering
    two title-search blocks.  [create_report] rejects no field value: on
    any database whose count is readable and whose next report key holds
    no plain string it succeeds whatever the four strings are. *)
Theorem comma_in_term_splits (newsapi : NewsApi) :
  has_char comma "a,b" = true /\
  terms_list (serialize_terms ["a,b"]) = ["a"; "b"] /\
  terms_list (serialize_terms ["a,b"]) <> ["a,b"] /\
  (exists d',
     create_report "Sports" "cbc-news" (serialize_terms ["a,b"]) "" ∅ =
       Some (None, d') /\
     get_report_data 1 d' = Some ((Some "cbc-news", Some "a,b", Some ""), d') /\
     generate_report newsapi 1 d' =
       Some (base_text newsapi "cbc-news" +:+ title_block newsapi "cbc-news" "a" +:+
             title_block newsapi "cbc-news" "b", d')) /\
  (forall (d : db) (n : Z) (report_name source_id title_search_terms
           all_search_terms : string),
     stored_count d = Some n -> not_str d (report_key (n + 1)) ->
     exists d', create_report report_name source_id title_search_terms
                  all_search_terms d = Some (None, d')).
Proof.
  split; [done |]. split; [vm_compute; reflexivity |].
  split; [vm_compute; discriminate |]. split.
  - destruct (create_then_get ∅ 0 "Sports" "cbc-news" "a,b" ""
                ltac:(by unfold stored_count; rewrite lookup_empty)
                (fun v => ltac:(by rewrite lookup_empty))) as (d' & Hc & Hg).
    exists d'. split; [done |]. split; [done |].
    rewrite (generate_report_run _ _ _ _ _ _ Hg), report_text_build.
    change (terms_list "a,b") with ["a"; "b"].
    change (terms_list "") with (@nil string). simpl.
    by rewrite !append_nil_r_s.
  - intros d n report_name source_id ts als Hn Hk.
    eexists. by apply create_report_run.
Qed.

Lemma comma_in_term_splits_witness :
  exists d', create_report "a,b" "c,d" "e,f" "g,h" ∅ = Some (None, d').
Proof.
  apply (proj2 (proj2 (proj2 (proj2 (comma_in_term_splits
           (mk_newsapi (fun _ => []) (fun _ _ => []) (fun _ _ => [])))))) ∅ 0).
  - by unfold stored_count; rewrite lookup_empty.
  - intros v. by rewrite lookup_empty.
Defined.

(** C8: a stored definition with empty title and all term strings
    renders exactly the base text: the headline header and one
    Title/Description entry per returned article, with no separator. *)
Theorem no_terms_renders_base (newsapi : NewsApi) (d : db) (report_id : Z)
    (source_id : string) :
  get_report_data report_id d = Some ((Some source_id, Some "", Some ""), d) ->
  generate_report newsapi report_id d =
  Some ("Headlines from " +:+ source_id +:+ nl +:+ nl +:+
        cat (map (fun a => "Title: " +:+ py_str (title a) +:+ nl +:+
                           "Description: " +:+ py_str (description a) +:+ nl +:+ nl)
                 (get_top_headlines newsapi source_id)), d).
Proof.
  intros Hget. rewrite (generate_report_run _ _ _ _ _ _ Hget).
  unfold build_report. change (terms_list "") with (@nil string).
  cbn [fold_left]. rewrite report_text_base. reflexivity.
Qed.

Lemma no_terms_renders_base_witness :
  let newsapi := mk_newsapi
    (fun _ => [mk_article (Some "H1") None (Some "D1") None])
    (fun _ _ => []) (fun _ _ => []) in
  let d := <[report_key 1 := RHash (report_record "Sports" "cbc-news" "" "" ∅)]>
           (<[count_key := RStr "1"]> ∅) in
  generate_report newsapi 1 d =
  Some ("Headlines from " +:+ "cbc-news" +:+ nl +:+ nl +:+
        cat (map (fun a => "Title: " +:+ py_str (title a) +:+ nl +:+
                           "Description: " +:+ py_str (description a) +:+ nl +:+ nl)
                 (get_top_headlines newsapi "cbc-news")), d).
Proof.
  intros newsapi d. apply no_terms_renders_base. vm_compute. reflexivity.
Defined.

(** C9: [get_report_data] on an id with no record returns [None] for each
    of the three fields and does not raise. *)
Theorem get_missing_report_data (d : db) (report_id : Z) :
  d !! report_key report_id = None ->
  get_report_data report_id d = Some ((None, None, None), d).
Proof.
  intros Hk. rewrite get_report_data_run by (intros v; by rewrite Hk).
  unfold hash_at. by rewrite Hk.
Qed.

Lemma get_missing_report_data_witness :
  get_report_data 7 (<[count_key := RStr "1"]> ∅) = Some ((None, None, None),
    <[count_key := RStr "1"]> ∅).
Proof. apply get_missing_report_data. vm_compute. reflexivity. Defined.

(* ------------------------------------------------------------------ *)
(** ** Listing the report names *)

Lemma get_report_names_loop_run (n : nat) (i : Z) (d : db) :
  (forall j, i <= j < i + Z.of_nat n -> not_str d (report_key j)) ->
  get_report_names_loop n i d =
  Some (map (fun j => hash_at d (report_key j) !! "report_name")
            (seqZ i (Z.of_nat n)), d).
Proof.
  revert i. induction n as [|n IH]; intros i Hk; [done |].
  simpl get_report_names_loop.
  erewrite bind_run by (apply hget_run, Hk; lia).
  erewrite bind_run by (apply IH; intros j Hj; apply Hk; lia).
  unfold ret. rewrite (seqZ_cons i) by lia. simpl.
  by replace (Z.succ i) with (i + 1) by lia;
    replace (Z.pred (Z.of_nat (S n))) with (Z.of_nat n) by lia.
Qed.

Lemma get_report_names_run (d : db) (k : Z) :
  d !! count_key = Some (RStr (py_str_int k)) ->
  (forall j, 1 <= j <= k -> not_str d (report_key j)) ->
  get_report_names d =
  Some (map (fun j => hash_at d (report_key j) !! "report_name")
            (seqZ 1 (Z.of_nat (Z.to_nat k))), d).
Proof.
  intros Hc Hk. unfold get_report_names.
  erewrite bind_run by (unfold redis_get; by rewrite Hc).
  erewrite bind_run by (unfold lift; by rewrite py_int_py_str_int).
  apply get_report_names_loop_run. intros j Hj. apply Hk. lia.
Qed.

(* ------------------------------------------------------------------ *)
(** ** A sequence of creations *)

Lemma create_reports_snoc (l : list create_input) (x : create_input)
    (d d1 d2 : db) (r : option Z) :
  create_reports l d = Some (tt, d1) ->
  create_report (in_report_name x) (in_source_id x) (in_title_search_terms x)
    (in_all_search_terms x) d1 = Some (r, d2) ->
  create_reports (l ++ [x]) d = Some (tt, d2).
Proof.
  revert d. induction l as [|y l IH]; intros d H1 H2.
  - simpl in H1. unfold ret in H1. simplify_eq. simpl.
    by rewrite (bind_run _ _ _ _ _ H2).
  - simpl in *. unfold bind in H1 |- *.
    destruct (create_report _ _ _ _ d) as [[r' d']|]; [| done].
    by apply IH.
Qed.

Lemma created_db_nil : created_db [] ∅.
Proof.
  split; [| split].
  - by rewrite lookup_empty.
  - intros i. rewrite lookup_empty. by case_decide.
  - intros k _ _. apply lookup_empty.
Qed.

Lemma created_db_snoc (l : list create_input) (x : create_input) (d : db) :
  created_db l d ->
  exists d',
    create_report (in_report_name x) (in_source_id x) (in_title_search_terms x)
      (in_all_search_terms x) d = Some (None, d') /\
    created_db (l ++ [x]) d'.
Proof.
  intros (Hc & Hr & Ho).
  set (n := Z.of_nat (length l)).
  assert (Hn : stored_count d = Some n).
  { unfold stored_count. rewrite Hc.
    destruct l; [done |]. apply py_int_py_str_int. }
  assert (Hfresh : d !! report_key (n + 1) = None).
  { rewrite Hr. by case_decide; [lia |]. }
  assert (Hk : not_str d (report_key (n + 1))) by (intros v; by rewrite Hfresh).
  eexists. split; [by apply create_report_run |].
  assert (Hh : hash_at d (report_key (n + 1)) = ∅) by (unfold hash_at; by rewrite Hfresh).
  rewrite Hh. fold (input_record x).
  assert (Hlen : Z.of_nat (length (l ++ [x])) = n + 1)
    by (rewrite length_app; simpl; lia).
  split; [| split].
  - rewrite lookup_insert_ne by apply report_key_ne_count.
    rewrite lookup_insert_eq, Hlen. by destruct l.
  - intros i. rewrite Hlen. destruct (decide (i = n + 1)) as [->|Hi].
    + rewrite lookup_insert_eq, decide_True by lia.
      replace (Z.to_nat (n + 1 - 1)) with (length l) by lia.
      by rewrite list_lookup_middle.
    + rewrite lookup_insert_ne by (intros E; apply report_key_inj in E; lia).
      rewrite lookup_insert_ne by (apply not_eq_sym, report_key_ne_count).
      rewrite Hr. case_decide; case_decide; try lia; [| done].
      rewrite lookup_app_l by lia. done.
  - intros k Hk1 Hk2. rewrite !lookup_insert_ne by done. by apply Ho.
Qed.

Lemma created_db_reachable (l : list create_input) :
  exists d, create_reports l ∅ = Some (tt, d) /\ created_db l d.
Proof.
  induction l as [|x l IH] using rev_ind.
  - exists ∅. split; [done | apply created_db_nil].
  - destruct IH as (d & Hrun & Hdb).
    destruct (created_db_snoc l x d Hdb) as (d' & Hc & Hdb').
    exists d'. split; [by eapply create_reports_snoc | done].
Qed.

(** C5 (the claim holds only if the absent count is read as 0): when the
    key ["report:count"] is absent, [get_report_names] evaluates
    [int(None)], which raises [TypeError], instead of returning [[]]. *)
Theorem get_report_names_no_count (d : db) :
  d !! count_key = None -> get_report_names d = None.
Proof.
  intros Hc. unfold get_report_names, bind at 1, redis_get. by rewrite Hc.
Qed.

Lemma get_report_names_no_count_witness : get_report_names ∅ = None.
Proof. apply get_report_names_no_count. apply lookup_empty. Defined.

(** C6, as the claim states it at k = 0: after no creation the count
    stored is not ["0"] (the key is absent) and listing the names does
    not return [[]]. *)
Lemma create_reports_zero_no_count :
  ~ (exists d, create_reports [] ∅ = Some (tt, d) /\
               d !! count_key = Some (RStr (py_str_int 0)) /\
               get_report_names d = Some ([], d)).
Proof.
  intros (d & H & Hc & _). simpl in H. unfold ret in H. injection H as <-.
  rewrite lookup_empty in Hc. discriminate.
Qed.

(** C10: with the count at [str(k)], every report key 1..k holding a hash
    or nothing, and no record at id [i] (1 <= i <= k), [get_report_names]
    succeeds and returns k entries, the i-th of which is [None]. *)
Theorem get_report_names_gap (d : db) (k i : Z) :
  d !! count_key = Some (RStr (py_str_int k)) ->
  (forall j, 1 <= j <= k -> not_str d (report_key j)) ->
  1 <= i <= k ->
  d !! report_key i = None ->
  exists names,
    get_report_names d = Some (names, d) /\
    length names = Z.to_nat k /\
    names !! Z.to_nat (i - 1) = Some None.
Proof.
  intros Hc Hk Hi Hmiss.
  rewrite (get_report_names_run d k Hc Hk).
  eexists. split; [reflexivity |]. split.
  - by rewrite length_map, length_seqZ, Nat2Z.id.
  - rewrite list_lookup_fmap, lookup_seqZ_lt by lia. simpl.
    replace (1 + Z.of_nat (Z.to_nat (i - 1))) with i by lia.
    unfold hash_at. by rewrite Hmiss.
Qed.

Lemma get_report_names_gap_witness :
  exists names,
    get_report_names
      (<[count_key := RStr "3"]>
       (<[report_key 1 := RHash (report_record "Sports" "cbc-news" "" "" ∅)]>
        (<[report_key 3 := RHash (report_record "World" "cnn" "" "" ∅)]> ∅))) =
      Some (names,
            <[count_key := RStr "3"]>
            (<[report_key 1 := RHash (report_record "Sports" "cbc-news" "" "" ∅)]>
             (<[report_key 3 := RHash (report_record "World" "cnn" "" "" ∅)]> ∅))) /\
    length names = Z.to_nat 3 /\
    names !! Z.to_nat (2 - 1) = Some None.
Proof.
  apply (get_report_names_gap _ 3 2).
  - vm_compute. reflexivity.
  - intros j Hj v. vm_compute.
    assert (j = 1 \/ j = 2 \/ j = 3) as [-> | [-> | ->]] by lia;
      vm_compute; discriminate.
  - lia.
  - vm_compute. reflexivity.
Defined.

(* ================================================================== *)
(** * Further properties of the controller, the view and the loggers *)

(* ------------------------------------------------------------------ *)
(** ** Helpers *)

Lemma create_report_loop_finish (report_name source_id : string)
    (steps : list (Z * string)) (o : Z) (t : string) (rest : list (Z * string))
    (title_search_terms all_search_terms : list string) :
  Forall (fun p => p.1 = 1 \/ p.1 = 2) steps -> o <> 1 -> o <> 2 ->
  create_report_loop report_name source_id (steps ++ (o, t) :: rest)
    title_search_terms all_search_terms =
  (create_report report_name source_id
     (serialize_terms (title_search_terms ++ entered_terms 1 steps))
     (serialize_terms (all_search_terms ++ entered_terms 2 steps)) ;;; ret tt).
Proof.
  intros Hsteps Ho1 Ho2. revert title_search_terms all_search_terms.
  induction steps as [|[o' t'] steps IH]; intros ts als.
  - simpl. rewrite !app_nil_r.
    destruct (Z.eqb_spec o 1); [done |]. by destruct (Z.eqb_spec o 2).
  - apply Forall_cons in Hsteps as [Hp Hsteps]. simpl in Hp.
    simpl. destruct Hp as [-> | ->]; simpl.
    + rewrite IH by done. by rewrite <- app_assoc.
    + rewrite IH by done. by rewrite <- app_assoc.
Qed.

Lemma create_report_loop_no_finish (report_name source_id : string)
    (steps : list (Z * string)) (title_search_terms all_search_terms : list string)
    (d : db) :
  Forall (fun p => p.1 = 1 \/ p.1 = 2) steps ->
  create_report_loop report_name source_id steps
    title_search_terms all_search_terms d = None.
Proof.
  revert title_search_terms all_search_terms.
  induction steps as [|[o' t'] steps IH]; intros ts als Hsteps; [done |].
  apply Forall_cons in Hsteps as [Hp Hsteps]. simpl in Hp.
  simpl. destruct Hp as [-> | ->]; simpl; by apply IH.
Qed.

Lemma view_report_lines_none (i : Z) (report_names : list (option string)) :
  None ∈ report_names -> view_report_lines i report_names = None.
Proof.
  revert i. induction report_names as [|r names IH]; intros i Hin.
  - by apply not_elem_of_nil in Hin.
  - apply elem_of_cons in Hin as [<- | Hin]; [done |].
    simpl. destruct r; [| done]. by rewrite IH.
Qed.

Lemma view_report_lines_some (i : Z) (report_names : list string) :
  view_report_lines i (Some <$> report_names) =
  Some (zip_with (fun k report => "(" +:+ py_str_int k +:+ ") " +:+ report)
          (seqZ i (Z.of_nat (length report_names))) report_names).
Proof.
  revert i. induction report_names as [|r names IH]; intros i; [done |].
  simpl. rewrite IH. simpl. rewrite (seqZ_cons i) by lia.
  by replace (Z.succ i) with (i + 1) by lia;
    replace (Z.pred (Z.of_nat (S (length names)))) with (Z.of_nat (length names)) by lia.
Qed.

(** The names listed in a database built by [create_reports]. *)
Lemma created_db_names (l : list create_input) (d : db) :
  created_db l d -> l <> [] ->
  get_report_names d = Some ((fun x => Some (in_report_name x)) <$> l, d).
Proof.
  intros (Hc & Hr & _) Hne.
  rewrite (get_report_names_run d (Z.of_nat (length l))); [| by destruct l |].
  - f_equal. f_equal. apply list_eq. intros p.
    rewrite !list_lookup_fmap, Nat2Z.id.
    destruct (decide (p < length l)%nat) as [Hp|Hp].
    + rewrite lookup_seqZ_lt by lia. simpl.
      destruct (lookup_lt_is_Some_2 l p) as [x Hx]; [lia |].
      unfold hash_at. rewrite Hr, decide_True by lia.
      replace (Z.to_nat (1 + Z.of_nat p - 1)) with p by lia.
      rewrite Hx. simpl. unfold input_record, report_record. by simplify_map_eq.
    + rewrite lookup_seqZ_ge by lia. by rewrite lookup_ge_None_2 by lia.
  - intros j Hj v. rewrite Hr. case_decide; [| done].
    by destruct (l !! Z.to_nat (j - 1)).
Qed.

Lemma report_key_ne_log (i : Z) : report_key i <> "log".
Proof. unfold report_key. rewrite append_cons_s. discriminate. Qed.

Lemma print_created_run (newsapi : NewsApi) (l : list create_input) (d : db)
    (report_id : Z) (x : create_input) :
  created_db l d -> 1 <= report_id -> l !! Z.to_nat (report_id - 1) = Some x ->
  controller_print_report newsapi report_id d =
  Some ((zip_with (fun k report => "(" +:+ py_str_int k +:+ ") " +:+ report)
           (seqZ 1 (Z.of_nat (length l))) (in_report_name <$> l),
         report_text newsapi (build_report (in_source_id x)
           (in_title_search_terms x) (in_all_search_terms x))), d).
Proof.
  intros Hdb Hid Hx.
  assert (Hne : l <> []) by (intros ->; done).
  pose proof Hdb as (Hc & Hr & _).
  assert (Hk : d !! report_key report_id = Some (RHash (input_record x)))
    by (rewrite Hr, decide_True, Hx; [done |];
        split; [done |]; apply lookup_lt_Some in Hx; lia).
  unfold controller_print_report.
  rewrite (bind_run _ _ _ _ _ (created_db_names l d Hdb Hne)).
  assert (Hnames : (fun x => Some (in_report_name x)) <$> l =
                   Some <$> (in_report_name <$> l))
    by (by rewrite <- list_fmap_compose).
  rewrite Hnames, view_report_lines_some, length_fmap.
  unfold bind at 1, lift at 1.
  unfold py_index. rewrite length_fmap.
  destruct (Z.ltb_spec (report_id - 1) 0); [lia |].
  destruct (Z.leb_spec 0 (report_id - 1)); [| lia].
  rewrite !list_lookup_fmap, Hx.
  assert (Hg : generate_report newsapi report_id d =
    Some (report_text newsapi (build_report (in_source_id x)
            (in_title_search_terms x) (in_all_search_terms x)), d)).
  { apply generate_report_run.
    rewrite get_report_data_run by (intros v; by rewrite Hk).
    unfold hash_at. rewrite Hk. unfold input_record, report_record.
    by simplify_map_eq. }
  unfold bind, lift. cbn -[generate_report]. by rewrite Hg.
Qed.

Lemma print_missing_record (newsapi : NewsApi) (report_id : Z) (d : db)
    (report_names : list (option string)) :
  get_report_names d = Some (report_names, d) ->
  d !! report_key report_id = None ->
  controller_print_report newsapi report_id d = None.
Proof.
  intros Hn Hk. unfold controller_print_report.
  rewrite (bind_run _ _ _ _ _ Hn).
  unfold bind at 1, lift at 1.
  destruct (view_report_lines 1 report_names); [| done].
  unfold bind at 1, lift at 1.
  destruct (py_index report_names (report_id - 1)) as [[name|]|]; [| done | done].
  unfold bind at 1, lift at 1. unfold bind at 1.
  assert (Hg : generate_report newsapi report_id d = None).
  { unfold generate_report.
    rewrite (bind_run _ _ _ _ _
               (get_report_data_run report_id d ltac:(intros v; by rewrite Hk))).
    unfold hash_at. rewrite Hk. done. }
  cbn -[generate_report]. by rewrite Hg.
Qed.

(* ------------------------------------------------------------------ *)
(** ** The controller and the view *)

(** [Controller.__create_report]: while the menu answers are 1 (title
    search) or 2 (search in title or content), nothing is saved; the first
    other answer saves the report once, with the terms typed after option 1
    and after option 2 each comma-joined in the order typed, and the
    answers after it are not read.  Input that ends before such an answer
    saves nothing (the loop raises at end of input). *)
Theorem controller_create_report_saves_on_finish (report_name source_id : string)
    (steps : list (Z * string)) (o : Z) (t : string) (rest : list (Z * string)) :
  Forall (fun p => p.1 = 1 \/ p.1 = 2) steps -> o <> 1 -> o <> 2 ->
  controller_create_report report_name source_id (steps ++ (o, t) :: rest) =
    (create_report report_name source_id
       (serialize_terms (entered_terms 1 steps))
       (serialize_terms (entered_terms 2 steps)) ;;; ret tt) /\
  (forall d, controller_create_report report_name source_id steps d = None).
Proof.
  intros Hsteps Ho1 Ho2. split.
  - unfold controller_create_report. by rewrite create_report_loop_finish.
  - intros d. by apply create_report_loop_no_finish.
Qed.

Lemma controller_create_report_saves_on_finish_witness :
  Forall (fun p => p.1 = 1 \/ p.1 = 2) [(1, "nhl"); (2, "trade"); (1, "nba")] /\
  3 <> 1 /\ 3 <> 2 /\
  controller_create_report "Sports" "cbc-news"
    ([(1, "nhl"); (2, "trade"); (1, "nba")] ++ (3, "") :: [(1, "ignored")]) =
    (create_report "Sports" "cbc-news"
       (serialize_terms (entered_terms 1 [(1, "nhl"); (2, "trade"); (1, "nba")]))
       (serialize_terms (entered_terms 2 [(1, "nhl"); (2, "trade"); (1, "nba")]))
     ;;; ret tt) /\
  (forall d, controller_create_report "Sports" "cbc-news"
               [(1, "nhl"); (2, "trade"); (1, "nba")] d = None).
Proof.
  assert (Hs : Forall (fun p : Z * string => p.1 = 1 \/ p.1 = 2)
                 [(1, "nhl"); (2, "trade"); (1, "nba")])
    by (repeat constructor; simpl; auto).
  assert (H1 : 3 <> 1) by lia. assert (H2 : 3 <> 2) by lia.
  destruct (controller_create_report_saves_on_finish "Sports" "cbc-news"
              [(1, "nhl"); (2, "trade"); (1, "nba")] 3 "" [(1, "ignored")]
              Hs H1 H2) as [Ha Hb].
  split; [exact Hs |]. split; [exact H1 |]. split; [exact H2 |].
  split; [exact Ha | exact Hb].
Defined.

(** [View.print_report]: the names are listed as ["(i) name"], numbered
    from [i] up in order; the listing raises exactly when some name is
    [None] (a report id without a record). *)
Theorem view_print_report_listing (i : Z) (report_names : list string)
    (names : list (option string)) :
  view_report_lines i (Some <$> report_names) =
    Some (zip_with (fun k report => "(" +:+ py_str_int k +:+ ") " +:+ report)
            (seqZ i (Z.of_nat (length report_names))) report_names) /\
  (view_report_lines i names = None <-> None ∈ names).
Proof.
  split; [apply view_report_lines_some |].
  split; [| apply view_report_lines_none].
  revert i. induction names as [|r names IH]; intros i; [done |].
  simpl. destruct r as [r|]; [| intros _; by left].
  destruct (view_report_lines (i + 1) names) eqn:Hv; [done |].
  intros _. right. by apply (IH (i + 1)).
Qed.

(** [Controller.__print_report] after [create_report] was called once for
    each input of [l], from an empty database: asked for report [id], it
    lists all the names and renders the [id]-th input's report (its source
    id and term lists as stored), for 1 <= id <= length l; every other id
    raises, also id <= 0, which Python's negative indexing accepts for the
    log line but which has no record. *)
Theorem controller_print_report_created (newsapi : NewsApi)
    (l : list create_input) (report_id : Z) :
  fst <$> (create_reports l ;;; controller_print_report newsapi report_id) ∅ =
  if decide (1 <= report_id) then
    (fun x =>
       (zip_with (fun k report => "(" +:+ py_str_int k +:+ ") " +:+ report)
          (seqZ 1 (Z.of_nat (length l))) (in_report_name <$> l),
        report_text newsapi (build_report (in_source_id x)
          (in_title_search_terms x) (in_all_search_terms x))))
      <$> l !! Z.to_nat (report_id - 1)
  else None.
Proof.
  destruct (created_db_reachable l) as (d & Hrun & Hdb).
  rewrite (bind_run _ _ _ _ _ Hrun).
  pose proof Hdb as (Hc & Hr & _).
  destruct (decide (1 <= report_id)) as [Hid|Hid];
    [destruct (l !! Z.to_nat (report_id - 1)) as [x|] eqn:Hx |].
  - by rewrite (print_created_run newsapi l d report_id x Hdb Hid Hx).
  - destruct (decide (l = [])) as [->|Hne].
    + unfold controller_print_report, get_report_names, bind, redis_get.
      simpl in Hc. by rewrite Hc.
    + rewrite (print_missing_record newsapi report_id d _
                 (created_db_names l d Hdb Hne)); [done |].
      rewrite Hr, decide_False; [done |].
      apply lookup_ge_None in Hx. lia.
  - destruct (decide (l = [])) as [->|Hne].
    + unfold controller_print_report, get_report_names, bind, redis_get.
      simpl in Hc. by rewrite Hc.
    + rewrite (print_missing_record newsapi report_id d _
                 (created_db_names l d Hdb Hne)); [done |].
      rewrite Hr, decide_False; [done | lia].
Qed.

(** [Controller.__print_report] on a database whose count is [str(k)] and
    where some id 1..k has no record: whatever id is asked for, printing
    raises, because the listing itself reaches the missing name. *)
Theorem controller_print_report_gap (newsapi : NewsApi) (d : db) (k i report_id : Z) :
  d !! count_key = Some (RStr (py_str_int k)) ->
  (forall j, 1 <= j <= k -> not_str d (report_key j)) ->
  1 <= i <= k ->
  d !! report_key i = None ->
  controller_print_report newsapi report_id d = None.
Proof.
  intros Hc Hk Hi Hmiss. unfold controller_print_report.
  rewrite (bind_run _ _ _ _ _ (get_report_names_run d k Hc Hk)).
  rewrite view_report_lines_none; [done |].
  apply list_elem_of_lookup. exists (Z.to_nat (i - 1)).
  rewrite list_lookup_fmap, lookup_seqZ_lt by lia. simpl.
  replace (1 + Z.of_nat (Z.to_nat (i - 1))) with i by lia.
  unfold hash_at. by rewrite Hmiss.
Qed.

Lemma controller_print_report_gap_witness :
  controller_print_report
    (mk_newsapi (fun _ => []) (fun _ _ => []) (fun _ _ => [])) 1
    (<[count_key := RStr "2"]>
     (<[report_key 2 := RHash (report_record "World" "cnn" "" "" ∅)]> ∅)) = None.
Proof.
  apply (controller_print_report_gap _ _ 2 1 1).
  - vm_compute. reflexivity.
  - intros j Hj v. vm_compute.
    assert (j = 1 \/ j = 2) as [-> | ->] by lia; vm_compute; discriminate.
  - lia.
  - vm_compute. reflexivity.
Defined.

(** Creating a first report through [Controller.__create_report] and then
    printing report 1 through [Controller.__print_report]: the listing is
    the one name, and the text is the headlines of the source followed by
    one title-search block per term typed after option 1 and one
    title-or-content block per term typed after option 2, each in the order
    typed.  This needs terms without commas, and neither list made of a
    single empty term (both are split again when the report is printed). *)
Theorem controller_create_then_print (newsapi : NewsApi)
    (report_name source_id : string) (steps : list (Z * string)) (o : Z)
    (t : string) (rest : list (Z * string)) :
  Forall (fun p => p.1 = 1 \/ p.1 = 2) steps -> o <> 1 -> o <> 2 ->
  Forall (fun p => has_char comma p.2 = false) steps ->
  entered_terms 1 steps <> [""] -> entered_terms 2 steps <> [""] ->
  fst <$> (controller_create_report report_name source_id (steps ++ (o, t) :: rest)
           ;;; controller_print_report newsapi 1) ∅ =
  Some (["(" +:+ py_str_int 1 +:+ ") " +:+ report_name],
        base_text newsapi source_id +:+
        cat (map (title_block newsapi source_id) (entered_terms 1 steps)) +:+
        cat (map (all_block newsapi source_id) (entered_terms 2 steps))).
Proof.
  intros Hsteps Ho1 Ho2 Hcomma H1 H2.
  assert (Hfree : forall n, Forall (fun x => has_char comma x = false)
                              (entered_terms n steps)).
  { intros n. clear -Hcomma. induction steps as [|[o' t'] steps IH]; [done |].
    apply Forall_cons in Hcomma as [Ht Hcomma]. simpl in Ht |- *.
    destruct (o' =? n)%Z; [constructor |]; auto. }
  unfold controller_create_report. rewrite create_report_loop_finish by done.
  rewrite !app_nil_l.
  set (x := mk_create_input report_name source_id
              (serialize_terms (entered_terms 1 steps))
              (serialize_terms (entered_terms 2 steps))).
  destruct (created_db_reachable [x]) as (d & Hrun & Hdb).
  change (create_reports [x]) with
    (create_report (in_report_name x) (in_source_id x) (in_title_search_terms x)
       (in_all_search_terms x) ;;; ret tt) in Hrun.
  simpl in Hrun.
  rewrite (bind_run _ _ _ _ _ Hrun).
  rewrite (print_created_run newsapi [x] d 1 x Hdb) by done.
  simpl. rewrite report_text_build. subst x. simpl.
  by rewrite !terms_list_serialize.
Qed.

Lemma controller_create_then_print_witness :
  fst <$> (controller_create_report "Sports" "cbc-news"
             ([(1, "nhl"); (2, "trade")] ++ (3, "") :: [])
           ;;; controller_print_report
                 (mk_newsapi (fun _ => []) (fun _ _ => []) (fun _ _ => [])) 1) ∅ =
  Some (["(" +:+ py_str_int 1 +:+ ") " +:+ "Sports"],
        base_text (mk_newsapi (fun _ => []) (fun _ _ => []) (fun _ _ => [])) "cbc-news" +:+
        cat (map (title_block (mk_newsapi (fun _ => []) (fun _ _ => []) (fun _ _ => []))
                    "cbc-news") (entered_terms 1 [(1, "nhl"); (2, "trade")])) +:+
        cat (map (all_block (mk_newsapi (fun _ => []) (fun _ _ => []) (fun _ _ => []))
                    "cbc-news") (entered_terms 2 [(1, "nhl"); (2, "trade")]))).
Proof.
  apply controller_create_then_print.
  - apply (bool_decide_unpack _). vm_compute. reflexivity.
  - lia.
  - lia.
  - apply (bool_decide_unpack _). vm_compute. reflexivity.
  - vm_compute. discriminate.
  - vm_compute. discriminate.
Defined.

(* ------------------------------------------------------------------ *)
(** ** The loggers *)

Lemma log_frame_refl (w : world) : log_frame w w.
Proof.
  split; [done |]. split; [exists []; by rewrite app_nil_r |].
  intros f c ->. exists "". by rewrite append_nil_r_s.
Qed.

Lemma log_frame_trans (w1 w2 w3 : world) :
  log_frame w1 w2 -> log_frame w2 w3 -> log_frame w1 w3.
Proof.
  intros (Hd1 & [s1 Ho1] & Hf1) (Hd2 & [s2 Ho2] & Hf2). split; [| split].
  - intros k Hk. by rewrite Hd2, Hd1.
  - exists (s1 ++ s2)%list. by rewrite Ho2, Ho1, app_assoc.
  - intros f c Hc. destruct (Hf1 f c Hc) as [t1 Ht1].
    destruct (Hf2 f _ Ht1) as [t2 Ht2]. exists (t1 +:+ t2).
    by rewrite Ht2, append_assoc_s.
Qed.

Lemma log_frame_print (line : string) (w : world) :
  log_frame w (print_line line (tick w)).
Proof.
  split; [done |]. split; [by exists [line] |].
  intros f c Hc. exists "". by rewrite append_nil_r_s.
Qed.

Lemma log_frame_append (fname line : string) (w : world) :
  log_frame w (append_file fname line (tick w)).
Proof.
  split; [done |]. split; [exists []; by rewrite app_nil_r |].
  intros f c Hc. simpl. destruct (decide (f = fname)) as [->|Hne].
  - exists line. by rewrite lookup_insert_eq, Hc.
  - exists "". rewrite lookup_insert_ne by done. by rewrite append_nil_r_s.
Qed.

Lemma log_frame_hset (f v : string) (w : world) (d' : db) :
  redis_hset "log" f v (w_db w) = Some (tt, d') ->
  log_frame w (set_db d' (tick w)).
Proof.
  intros H. split; [| split].
  - intros k Hk. simpl. unfold redis_hset in H.
    destruct (w_db w !! "log") as [[x|h]|]; simplify_eq;
      by rewrite lookup_insert_ne by done.
  - exists []. by rewrite app_nil_r.
  - intros g c Hc. exists "". by rewrite append_nil_r_s.
Qed.

Lemma logger_log_frame (stamp : nat -> string) :
  forall (lg : Logger) (message : string) (w w' : world),
  logger_log stamp lg message w = Some w' -> log_frame w w'.
Proof.
  fix IH 1. intros lg message w w' H.
  destruct lg as [next|next fname|next]; cbn [logger_log] in H.
  - destruct next as [next|].
    + eapply log_frame_trans; [apply log_frame_print | exact (IH next _ _ _ H)].
    + injection H as <-. apply log_frame_print.
  - destruct next as [next|].
    + eapply log_frame_trans; [apply log_frame_append | exact (IH next _ _ _ H)].
    + injection H as <-. apply log_frame_append.
  - destruct (redis_hset "log" (stamp (w_ticks w)) message (w_db w))
      as [[[] d']|] eqn:Hs; [| done].
    destruct next as [next|].
    + eapply log_frame_trans; [by eapply log_frame_hset | exact (IH next _ _ _ H)].
    + injection H as <-. by eapply log_frame_hset.
Qed.

(** [App.log] with the chain [App.setup] builds: each sink switched on by
    the exact text ["TRUE"] gets the message once, the database first
    (field: the time stamp, in the hash ["log"]), then the log file (one
    line appended), then the console (one line printed), each taking its
    own reading of the clock; a sink not switched on is left as it was.
    This needs the key ["log"] not to hold a plain string when the
    database sink is on ([HSET] would fail). *)
Theorem app_log_setup_logger (stamp : nat -> string)
    (console file database log_filename message : string) (w : world) :
  (String.eqb database "TRUE" = true -> not_str (w_db w) "log") ->
  app_log stamp (setup_logger console file database log_filename) message w =
  Some (mk_world
    (if String.eqb database "TRUE"
     then <["log" := RHash (<[stamp (w_ticks w) := message]> (hash_at (w_db w) "log"))]>
            (w_db w)
     else w_db w)
    (if String.eqb file "TRUE"
     then <[log_filename := default "" (w_files w !! log_filename) +:+
              (stamp (w_ticks w + Nat.b2n (String.eqb database "TRUE"))%nat +:+ ": " +:+
               message +:+ nl)]> (w_files w)
     else w_files w)
    (w_stdout w ++
     (if String.eqb console "TRUE"
      then [stamp (w_ticks w + Nat.b2n (String.eqb database "TRUE")
                   + Nat.b2n (String.eqb file "TRUE"))%nat +:+ ": " +:+ message]
      else []))%list
    (w_ticks w + Nat.b2n (String.eqb database "TRUE") + Nat.b2n (String.eqb file "TRUE")
     + Nat.b2n (String.eqb console "TRUE"))%nat).
Proof.
  intros Hlog. unfold setup_logger, app_log.
  destruct (String.eqb database "TRUE");
    [specialize (Hlog eq_refl); cbn [logger_log]; rewrite (hset_run _ _ _ _ Hlog) |];
    destruct (String.eqb file "TRUE"), (String.eqb console "TRUE");
    destruct w as [d files out n]; cbn [logger_log]; cbn;
    unfold print_line, append_file, set_db, tick;
    cbn [w_db w_files w_stdout w_ticks];
    by rewrite ?Nat.add_0_r, ?Nat.add_1_r, ?app_nil_r.
Qed.

Lemma app_log_setup_logger_witness :
  (String.eqb "TRUE" "TRUE" = true ->
   not_str (w_db (mk_world ∅ ∅ [] 0)) "log") /\
  app_log (fun _ => "t") (setup_logger "TRUE" "FALSE" "TRUE" "log.txt") "hello"
    (mk_world ∅ ∅ [] 0) =
  Some (mk_world
    (<["log" := RHash (<["t" := "hello"]> (hash_at ∅ "log"))]> ∅)
    ∅
    ([] ++ ["t" +:+ ": " +:+ "hello"])%list
    (0 + 1 + 0 + 1)%nat).
Proof.
  assert (H : String.eqb "TRUE" "TRUE" = true ->
              not_str (w_db (mk_world ∅ ∅ [] 0)) "log")
    by (intros _ v; simpl; by rewrite lookup_empty).
  split; [exact H |].
  exact (app_log_setup_logger (fun _ => "t") "TRUE" "FALSE" "TRUE" "log.txt" "hello"
           (mk_world ∅ ∅ [] 0) H).
Defined.

(** [App.log], whatever chain of loggers is set up: when it returns, no
    database key other than ["log"] has changed (so neither the report
    count nor any report record), stdout has only received new lines, and
    each existing file has only been appended to. *)
Theorem app_log_frame (stamp : nat -> string) (logger : option Logger)
    (message : string) (w w' : world) :
  app_log stamp logger message w = Some w' ->
  (forall k, k <> "log" -> w_db w' !! k = w_db w !! k) /\
  w_db w' !! count_key = w_db w !! count_key /\
  (forall i, w_db w' !! report_key i = w_db w !! report_key i) /\
  (exists s, w_stdout w' = (w_stdout w ++ s)%list) /\
  (forall f c, w_files w !! f = Some c -> exists s, w_files w' !! f = Some (c +:+ s)).
Proof.
  intros H.
  assert (Hf : log_frame w w').
  { destruct logger as [lg|]; simpl in H.
    - by eapply logger_log_frame.
    - injection H as <-. apply log_frame_refl. }
  destruct Hf as (Hd & Ho & Hfl).
  split; [done |]. split; [by apply Hd |]. split; [| done].
  intros i. apply Hd, report_key_ne_log.
Qed.

Lemma app_log_frame_witness :
  app_log (fun _ => "t") (setup_logger "TRUE" "TRUE" "TRUE" "log.txt") "hello"
    (mk_world (<[count_key := RStr "1"]> ∅) ∅ [] 0) =
    Some (mk_world
            (<["log" := RHash {["t" := "hello"]}]> (<[count_key := RStr "1"]> ∅))
            {["log.txt" := "t: hello" +:+ nl]} ["t: hello"] 3) /\
  ((forall k, k <> "log" ->
      (<["log" := RHash {["t" := "hello"]}]> (<[count_key := RStr "1"]> (∅ : db))) !! k =
      (<[count_key := RStr "1"]> (∅ : db)) !! k) /\
   (<["log" := RHash {["t" := "hello"]}]> (<[count_key := RStr "1"]> (∅ : db))) !! count_key =
     (<[count_key := RStr "1"]> (∅ : db)) !! count_key /\
   (forall i,
      (<["log" := RHash {["t" := "hello"]}]> (<[count_key := RStr "1"]> (∅ : db)))
        !! report_key i =
      (<[count_key := RStr "1"]> (∅ : db)) !! report_key i) /\
   (exists s, ["t: hello"] = ([] ++ s)%list) /\
   (forall f c, (∅ : gmap string string) !! f = Some c ->
      exists s, ({["log.txt" := "t: hello" +:+ nl]} : gmap string string) !! f = Some (c +:+ s))).
Proof.
  assert (H : app_log (fun _ => "t") (setup_logger "TRUE" "TRUE" "TRUE" "log.txt")
                "hello" (mk_world (<[count_key := RStr "1"]> ∅) ∅ [] 0) =
              Some (mk_world
                (<["log" := RHash {["t" := "hello"]}]> (<[count_key := RStr "1"]> ∅))
                {["log.txt" := "t: hello" +:+ nl]} ["t: hello"] 3))
    by (vm_compute; reflexivity).
  exact (conj H (app_log_frame _ _ _ _ _ H)).
Defined.

(** [App.log] with the database sink switched on raises when the key
    ["log"] holds a plain string ([HSET] answers [WRONGTYPE]), whichever
    other sinks are switched on. *)
Theorem app_log_wrongtype (stamp : nat -> string)
    (console file database log_filename message v : string) (w : world) :
  String.eqb database "TRUE" = true ->
  w_db w !! "log" = Some (RStr v) ->
  app_log stamp (setup_logger console file database log_filename) message w = None.
Proof.
  intros Hdb Hlog. unfold setup_logger, app_log. rewrite Hdb.
  cbn [logger_log]. unfold redis_hset. by rewrite Hlog.
Qed.

Lemma app_log_wrongtype_witness :
  app_log (fun _ => "t") (setup_logger "TRUE" "TRUE" "TRUE" "log.txt") "hello"
    (mk_world (<["log" := RStr "x"]> ∅) ∅ [] 0) = None.
Proof.
  apply (app_log_wrongtype _ _ _ _ _ _ "x").
  - reflexivity.
  - simpl. by rewrite lookup_insert_eq.
Defined.

(* ------------------------------------------------------------------ *)
(** ** The [Model] methods with their log calls *)

Lemma count_key_ne_log : count_key <> "log".
Proof. unfold count_key. discriminate. Qed.

Lemma logger_log_ok (stamp : nat -> string) :
  forall (lg : Logger) (message : string) (w : world),
  not_str (w_db w) "log" ->
  exists w', logger_log stamp lg message w = Some w' /\ not_str (w_db w') "log".
Proof.
  fix IH 1. intros lg message w Hw.
  destruct lg as [next|next fname|next]; cbn [logger_log].
  - destruct next as [next|]; [by apply IH | by eexists].
  - destruct next as [next|]; [by apply IH | by eexists].
  - rewrite (hset_run _ _ _ _ Hw).
    assert (Hw' : not_str (w_db (set_db (<["log" := RHash (<[stamp (w_ticks w) := message]>
                     (hash_at (w_db w) "log"))]> (w_db w)) (tick w))) "log")
      by (intros v; simpl; by rewrite lookup_insert_eq).
    destruct next as [next|]; [by apply IH | by eexists].
Qed.

Lemma app_log_ok (stamp : nat -> string) (logger : option Logger)
    (message : string) (w : world) :
  not_str (w_db w) "log" ->
  exists w', app_log stamp logger message w = Some w' /\
             not_str (w_db w') "log" /\ log_frame w w'.
Proof.
  intros Hw. destruct logger as [lg|]; simpl.
  - destruct (logger_log_ok stamp lg message w Hw) as (w' & H & Hn).
    exists w'. split; [done |]. split; [done |]. by eapply logger_log_frame.
  - exists w. split; [done |]. split; [done | apply log_frame_refl].
Qed.

Lemma frame_delete_log (w w' : world) :
  log_frame w w' -> delete "log" (w_db w') = delete "log" (w_db w).
Proof.
  intros [Hd _]. apply map_eq. intros k.
  destruct (decide (k = "log")) as [->|Hk]; [by rewrite !lookup_delete_eq |].
  rewrite !lookup_delete_ne by congruence. by apply Hd.
Qed.

Lemma model_create_report_run (stamp : nat -> string) (logger : option Logger)
    (w : world) (n : Z)
    (report_name source_id title_search_terms all_search_terms : string) :
  stored_count (w_db w) = Some n ->
  not_str (w_db w) (report_key (n + 1)) ->
  not_str (w_db w) "log" ->
  exists w',
    model_create_report stamp logger report_name source_id title_search_terms
      all_search_terms w = Some (None, w') /\
    not_str (w_db w') "log" /\
    log_frame
      (set_db (<[report_key (n + 1) :=
                  RHash (report_record report_name source_id title_search_terms
                           all_search_terms (hash_at (w_db w) (report_key (n + 1))))]>
               (<[count_key := RStr (py_str_int (n + 1))]> (w_db w))) w) w'.
Proof.
  intros Hn Hk Hlog. unfold model_create_report.
  rewrite (create_report_run _ _ _ _ _ _ Hn Hk).
  edestruct app_log_ok as (w' & Ha & Hn' & Hf); [| rewrite Ha; by exists w'].
  intros v. simpl.
  rewrite lookup_insert_ne by (apply report_key_ne_log).
  rewrite lookup_insert_ne by (apply count_key_ne_log). apply Hlog.
Qed.

Lemma stored_count_delete_log (d : db) :
  stored_count (delete "log" d) = stored_count d.
Proof. unfold stored_count. by rewrite lookup_delete_ne by (apply not_eq_sym, count_key_ne_log). Qed.

Lemma created_db_count (l : list create_input) (d : db) :
  created_db l d ->
  stored_count d = Some (Z.of_nat (length l)) /\
  d !! report_key (Z.of_nat (length l) + 1) = None.
Proof.
  intros (Hc & Hr & _). split.
  - unfold stored_count. rewrite Hc. destruct l; [done |]. apply py_int_py_str_int.
  - rewrite Hr. by case_decide; [lia |].
Qed.

Lemma model_create_reports_snoc (stamp : nat -> string) (logger : option Logger)
    (l : list create_input) (x : create_input) (w : world) :
  model_create_reports stamp logger (l ++ [x]) w =
  match model_create_reports stamp logger l w with
  | None => None
  | Some (_, w') =>
      match model_create_report stamp logger (in_report_name x) (in_source_id x)
              (in_title_search_terms x) (in_all_search_terms x) w' with
      | None => None
      | Some (_, w'') => Some (tt, w'')
      end
  end.
Proof.
  revert w. induction l as [|y l IH]; intros w; simpl.
  - by destruct (model_create_report _ _ _ _ _ _ w) as [[? ?]|].
  - destruct (model_create_report _ _ _ _ _ _ w) as [[? ?]|]; [apply IH | done].
Qed.

(** One more creation keeps the database, the key ["log"] aside, as
    [created_db] describes it. *)
Lemma model_created_step (stamp : nat -> string) (logger : option Logger)
    (l : list create_input) (x : create_input) (w : world) :
  created_db l (delete "log" (w_db w)) -> not_str (w_db w) "log" ->
  exists w',
    model_create_report stamp logger (in_report_name x) (in_source_id x)
      (in_title_search_terms x) (in_all_search_terms x) w = Some (None, w') /\
    created_db (l ++ [x]) (delete "log" (w_db w')) /\
    not_str (w_db w') "log".
Proof.
  intros Hdb Hlog.
  destruct (created_db_count l _ Hdb) as [Hn Hfresh].
  set (n := Z.of_nat (length l)) in *.
  assert (Hrk : report_key (n + 1) <> "log") by apply report_key_ne_log.
  assert (Hfresh' : w_db w !! report_key (n + 1) = None)
    by (rewrite <- (lookup_delete_ne (w_db w) "log") by congruence; exact Hfresh).
  rewrite stored_count_delete_log in Hn.
  destruct (model_create_report_run stamp logger w n (in_report_name x) (in_source_id x)
              (in_title_search_terms x) (in_all_search_terms x) Hn
              ltac:(intros v; by rewrite Hfresh') Hlog) as (w' & Hrun & Hlog' & Hf).
  exists w'. split; [done |]. split; [| done].
  rewrite (frame_delete_log _ _ Hf). simpl.
  destruct (created_db_snoc l x _ Hdb) as (d'' & Hc'' & Hdb'').
  rewrite (create_report_run _ n _ _ _ _
             ltac:(by rewrite stored_count_delete_log)
             ltac:(intros v; by rewrite Hfresh)) in Hc''.
  injection Hc'' as <-.
  rewrite !delete_insert_ne by (try apply not_eq_sym, count_key_ne_log; congruence).
  unfold hash_at in Hdb'' |- *. rewrite lookup_delete_ne in Hdb'' by congruence.
  exact Hdb''.
Qed.

(** The names listed from a database whose count and report keys are as
    [created_db] describes them. *)
Lemma names_of_records (l : list create_input) (d : db) :
  d !! count_key = Some (RStr (py_str_int (Z.of_nat (length l)))) ->
  (forall i : Z, d !! report_key i =
     if decide (1 <= i <= Z.of_nat (length l))
     then (fun x => RHash (input_record x)) <$> l !! Z.to_nat (i - 1)
     else None) ->
  get_report_names d = Some ((fun x => Some (in_report_name x)) <$> l, d).
Proof.
  intros Hc Hr.
  rewrite (get_report_names_run d (Z.of_nat (length l)) Hc).
  - f_equal. f_equal. apply list_eq. intros p.
    rewrite !list_lookup_fmap, Nat2Z.id.
    destruct (decide (p < length l)%nat) as [Hp|Hp].
    + rewrite lookup_seqZ_lt by lia. simpl.
      destruct (lookup_lt_is_Some_2 l p) as [x Hx]; [lia |].
      unfold hash_at. rewrite Hr, decide_True by lia.
      replace (Z.to_nat (1 + Z.of_nat p - 1)) with p by lia.
      rewrite Hx. simpl. unfold input_record, report_record. by simplify_map_eq.
    + rewrite lookup_seqZ_ge by lia. by rewrite lookup_ge_None_2 by lia.
  - intros j Hj v. rewrite Hr. case_decide; [| done].
    by destruct (l !! Z.to_nat (j - 1)).
Qed.

Lemma bad_count_pure (d : db)
    (report_name source_id title_search_terms all_search_terms : string) :
  (exists c, d !! count_key = Some (RStr c) /\ py_int c = None) \/
  (exists h, d !! count_key = Some (RHash h)) ->
  create_report report_name source_id title_search_terms all_search_terms d = None /\
  get_report_names d = None.
Proof.
  intros [(c & Hc & Hint) | (h & Hc)];
    unfold create_report, get_report_names, bind, redis_get; rewrite Hc;
    [unfold lift; by rewrite Hint | done].
Qed.

(** C2, as the claim states it: one call of [Model.create_report] returns
    the new id.  On the empty database, with every log sink switched on,
    the call returns [None] instead of [Some 1]. *)
Lemma create_report_returns_no_id :
  ~ (exists w', model_create_report (fun _ => "t")
                  (setup_logger "TRUE" "TRUE" "TRUE" "log.txt")
                  "Sports" "cbc-news" "hockey" "" (mk_world ∅ ∅ [] 0) =
                Some (Some 1%Z, w')).
Proof.
  intros [w' Hw].
  destruct (model_create_report_run (fun _ => "t")
              (setup_logger "TRUE" "TRUE" "TRUE" "log.txt") (mk_world ∅ ∅ [] 0) 0
              "Sports" "cbc-news" "hockey" ""
              ltac:(by unfold stored_count; simpl; rewrite lookup_empty)
              ltac:(intros v; simpl; by rewrite lookup_empty)
              ltac:(intros v; simpl; by rewrite lookup_empty))
    as (w'' & Hw'' & _).
  congruence.
Qed.

(** C2 (amended): on a database whose count is absent (read as 0) or a
    text [int] reads as [n], whose key ["report:<n+1>"] holds no plain
    string and whose key ["log"] holds no plain string, [Model.create_report]
    (with its closing log call, whatever loggers are set up) writes
    [str(n + 1)] as the new count, writes the four fields into the hash at
    ["report:<n+1>"] (other fields of an existing hash there are kept),
    changes no other key except ["log"], which the log call writes when
    database logging is on, and returns [None]: the new id is not
    returned to the caller. *)
Theorem create_report_effect (stamp : nat -> string) (logger : option Logger)
    (w : world) (n : Z)
    (report_name source_id title_search_terms all_search_terms : string) :
  stored_count (w_db w) = Some n ->
  not_str (w_db w) (report_key (n + 1)) ->
  not_str (w_db w) "log" ->
  exists w',
    model_create_report stamp logger report_name source_id title_search_terms
      all_search_terms w = Some (None, w') /\
    w_db w' !! count_key = Some (RStr (py_str_int (n + 1))) /\
    w_db w' !! report_key (n + 1) =
      Some (RHash (report_record report_name source_id title_search_terms
                     all_search_terms (hash_at (w_db w) (report_key (n + 1))))) /\
    (forall k, k <> count_key -> k <> report_key (n + 1) -> k <> "log" ->
       w_db w' !! k = w_db w !! k).
Proof.
  intros Hn Hk Hlog.
  destruct (model_create_report_run stamp logger w n report_name source_id
              title_search_terms all_search_terms Hn Hk Hlog)
    as (w' & Hrun & _ & [Hd _]).
  exists w'. split; [done |]. split; [| split].
  - rewrite Hd by apply count_key_ne_log. simpl.
    rewrite lookup_insert_ne by apply report_key_ne_count.
    by rewrite lookup_insert_eq.
  - rewrite Hd by apply report_key_ne_log. simpl. by rewrite lookup_insert_eq.
  - intros k Hk1 Hk2 Hk3. rewrite Hd by done. simpl.
    by rewrite !lookup_insert_ne by congruence.
Qed.

Lemma create_report_effect_witness :
  exists w',
    model_create_report (fun _ => "t") (setup_logger "TRUE" "TRUE" "TRUE" "log.txt")
      "Sports" "cbc-news" "hockey" "" (mk_world ∅ ∅ [] 0) = Some (None, w') /\
    w_db w' !! count_key = Some (RStr (py_str_int (0 + 1))) /\
    w_db w' !! report_key (0 + 1) =
      Some (RHash (report_record "Sports" "cbc-news" "hockey" ""
                     (hash_at ∅ (report_key (0 + 1))))) /\
    (forall k, k <> count_key -> k <> report_key (0 + 1) -> k <> "log" ->
       w_db w' !! k = (∅ : db) !! k).
Proof.
  apply (create_report_effect (fun _ => "t") (setup_logger "TRUE" "TRUE" "TRUE" "log.txt")
           (mk_world ∅ ∅ [] 0) 0).
  - by unfold stored_count; simpl; rewrite lookup_empty.
  - intros v. simpl. by rewrite lookup_empty.
  - intros v. simpl. by rewrite lookup_empty.
Defined.

(** C6 (amended): starting from an empty database (whatever loggers are
    set up, and whatever the files, stdout and clock hold), after
    [Model.create_report] has been called for the inputs [l] in order,
    with k = [length l]: for k = 0 no count is stored; for k >= 1 the count
    is [str(k)] and [Model.get_report_names] returns the k names in
    creation order; for every k a record exists at ["report:<i>"] exactly
    for 1 <= i <= k, holding the i-th input, and no key exists other than
    these, the count, and ["log"], the hash the database logger writes. *)
Theorem create_reports_dense (stamp : nat -> string) (logger : option Logger)
    (l : list create_input) (files : gmap string string) (out : list string)
    (t : nat) :
  exists w',
    model_create_reports stamp logger l (mk_world ∅ files out t) = Some (tt, w') /\
    (l = [] -> w_db w' !! count_key = None) /\
    (l <> [] ->
       w_db w' !! count_key = Some (RStr (py_str_int (Z.of_nat (length l)))) /\
       exists w'', model_get_report_names stamp logger w' =
                     Some (map (fun x => Some (in_report_name x)) l, w'')) /\
    (forall i : Z, is_Some (w_db w' !! report_key i) <-> 1 <= i <= Z.of_nat (length l)) /\
    (forall i : Z, 1 <= i <= Z.of_nat (length l) ->
       exists x, l !! Z.to_nat (i - 1) = Some x /\
                 w_db w' !! report_key i = Some (RHash (input_record x))) /\
    (forall k, k <> count_key -> (forall i, k <> report_key i) -> k <> "log" ->
       w_db w' !! k = None).
Proof.
  assert (Hreach : exists w',
            model_create_reports stamp logger l (mk_world ∅ files out t) = Some (tt, w') /\
            created_db l (delete "log" (w_db w')) /\ not_str (w_db w') "log").
  { induction l as [|x l IH] using rev_ind.
    - eexists. split; [done |]. simpl. rewrite delete_empty. split; [apply created_db_nil |].
      intros v. by rewrite lookup_empty.
    - destruct IH as (w & Hrun & Hdb & Hlog).
      destruct (model_created_step stamp logger l x w Hdb Hlog) as (w' & H1 & Hdb' & Hlog').
      exists w'. rewrite model_create_reports_snoc, Hrun, H1. done. }
  destruct Hreach as (w' & Hrun & (Hc & Hr & Ho) & Hlog).
  assert (HC : w_db w' !! count_key =
            match l with [] => None | _ => Some (RStr (py_str_int (Z.of_nat (length l)))) end)
    by (rewrite <- (lookup_delete_ne (w_db w') "log")
          by (apply not_eq_sym, count_key_ne_log); exact Hc).
  assert (HR : forall i : Z, w_db w' !! report_key i =
            if decide (1 <= i <= Z.of_nat (length l))
            then (fun x => RHash (input_record x)) <$> l !! Z.to_nat (i - 1)
            else None).
  { intros i. rewrite <- (lookup_delete_ne (w_db w') "log")
      by (apply not_eq_sym, report_key_ne_log). apply Hr. }
  assert (Hrec : forall i : Z, 1 <= i <= Z.of_nat (length l) ->
            exists x, l !! Z.to_nat (i - 1) = Some x /\
                      w_db w' !! report_key i = Some (RHash (input_record x))).
  { intros i Hi. rewrite HR, decide_True by done.
    destruct (lookup_lt_is_Some_2 l (Z.to_nat (i - 1))) as [x Hx]; [lia |].
    exists x. by rewrite Hx. }
  exists w'. split; [done |]. split; [| split; [| split; [| split]]].
  - intros ->. exact HC.
  - intros Hne. assert (HC' : w_db w' !! count_key =
                          Some (RStr (py_str_int (Z.of_nat (length l)))))
      by (rewrite HC; by destruct l).
    split; [exact HC' |].
    unfold model_get_report_names. rewrite (names_of_records l _ HC' HR).
    destruct (app_log_ok stamp logger
                ("Report names retrieved: " +:+
                 py_str_list ((fun x => Some (in_report_name x)) <$> l))
                (set_db (w_db w') w') Hlog) as (w'' & Ha & _).
    rewrite Ha. by exists w''.
  - intros i. split.
    + rewrite HR. case_decide; [done |]. by intros [? ?].
    + intros Hi. destruct (Hrec i Hi) as (x & _ & Hd). by rewrite Hd.
  - exact Hrec.
  - intros k Hk1 Hk2 Hk3.
    rewrite <- (lookup_delete_ne (w_db w') "log") by congruence. by apply Ho.
Qed.

Lemma create_reports_dense_witness :
  exists w',
    model_create_reports (fun _ => "t") (setup_logger "TRUE" "TRUE" "TRUE" "log.txt")
      [mk_create_input "Sports" "cbc-news" "hockey" "";
       mk_create_input "World" "cnn" "" "election"] (mk_world ∅ ∅ [] 0) = Some (tt, w') /\
    exists w'', model_get_report_names (fun _ => "t")
                  (setup_logger "TRUE" "TRUE" "TRUE" "log.txt") w' =
                Some ([Some "Sports"; Some "World"], w'').
Proof.
  destruct (create_reports_dense (fun _ => "t") (setup_logger "TRUE" "TRUE" "TRUE" "log.txt")
              [mk_create_input "Sports" "cbc-news" "hockey" "";
               mk_create_input "World" "cnn" "" "election"] ∅ [] 0)
    as (w' & Hrun & _ & Hnames & _).
  exists w'. split; [exact Hrun |].
  exact (proj2 (Hnames ltac:(discriminate))).
Defined.

(* ------------------------------------------------------------------ *)
(** ** The model on an unexpected count *)

(** [Model.create_report] and [Model.get_report_names] both raise when
    ["report:count"] holds a string that [int] does not accept, or a hash
    ([GET] answers [WRONGTYPE]); both raise before their log call. *)
Theorem model_bad_count_raises (stamp : nat -> string) (logger : option Logger)
    (w : world) (report_name source_id title_search_terms all_search_terms : string) :
  (exists c, w_db w !! count_key = Some (RStr c) /\ py_int c = None) \/
  (exists h, w_db w !! count_key = Some (RHash h)) ->
  model_create_report stamp logger report_name source_id title_search_terms
    all_search_terms w = None /\
  model_get_report_names stamp logger w = None.
Proof.
  intros Hc.
  destruct (bad_count_pure (w_db w) report_name source_id title_search_terms
              all_search_terms Hc) as [H1 H2].
  unfold model_create_report, model_get_report_names. by rewrite H1, H2.
Qed.

Lemma model_bad_count_raises_witness :
  model_create_report (fun _ => "t") (setup_logger "TRUE" "TRUE" "TRUE" "log.txt")
    "Sports" "cbc-news" "" "" (mk_world (<[count_key := RStr "two"]> ∅) ∅ [] 0) = None /\
  model_get_report_names (fun _ => "t") (setup_logger "TRUE" "TRUE" "TRUE" "log.txt")
    (mk_world (<[count_key := RStr "two"]> ∅) ∅ [] 0) = None.
Proof.
  apply model_bad_count_raises. left. exists "two". split.
  - simpl. by rewrite lookup_insert_eq.
  - vm_compute. reflexivity.
Defined.

(** [Model.get_report_names] with a count of zero or below: the loop body
    never runs and the list returned is empty; [Controller.__print_report]
    then raises for any id the user types.  (The log call needs the key
    ["log"] not to hold a plain string.) *)
Theorem nonpositive_count_no_reports (newsapi : NewsApi) (stamp : nat -> string)
    (logger : option Logger) (w : world) (k : Z) :
  w_db w !! count_key = Some (RStr (py_str_int k)) -> k <= 0 ->
  not_str (w_db w) "log" ->
  (exists w', model_get_report_names stamp logger w = Some ([], w')) /\
  (forall report_id, controller_print_report newsapi report_id (w_db w) = None).
Proof.
  intros Hc Hk Hlog.
  assert (Hn : get_report_names (w_db w) = Some ([], w_db w)).
  { rewrite (get_report_names_run (w_db w) k Hc) by (intros j Hj; lia).
    by replace (Z.of_nat (Z.to_nat k)) with 0 by lia. }
  split.
  - unfold model_get_report_names. rewrite Hn.
    destruct (app_log_ok stamp logger ("Report names retrieved: " +:+ py_str_list [])
                (set_db (w_db w) w) Hlog) as (w' & Ha & _).
    rewrite Ha. by exists w'.
  - intros report_id.
    unfold controller_print_report. rewrite (bind_run _ _ _ _ _ Hn).
    unfold bind at 1, lift at 1. simpl.
    unfold bind at 1, lift at 1, py_index.
    by destruct (_ <? _), (0 <=? _).
Qed.

Lemma nonpositive_count_no_reports_witness :
  (exists w', model_get_report_names (fun _ => "t")
                (setup_logger "TRUE" "TRUE" "TRUE" "log.txt")
                (mk_world (<[count_key := RStr "-2"]> ∅) ∅ [] 0) = Some ([], w')) /\
  (forall report_id,
     controller_print_report (mk_newsapi (fun _ => []) (fun _ _ => []) (fun _ _ => []))
       report_id (w_db (mk_world (<[count_key := RStr "-2"]> ∅) ∅ [] 0)) = None).
Proof.
  apply (nonpositive_count_no_reports _ _ _ _ (-2)).
  - vm_compute. reflexivity.
  - lia.
  - intros v. vm_compute. discriminate.
Defined.
